(** * Stock ticker CRUD API: the route handlers of [server.js]

    A shallow embedding of the five JSON routes of [server.js]
    (GET/POST [/api/stocks], PUT/DELETE [/api/stocks/:symbol],
    GET [/api/search/:symbol]) as state transformers over the document
    collection, followed by the properties of the handlers. *)

From Stdlib Require Import ZArith String Ascii List Lia SpecFloat.
From stdpp Require Import base option strings gmap list.

Local Open Scope string_scope.
Local Open Scope Z_scope.
Local Open Scope list_scope.

(** ** JavaScript values *)

(** A JavaScript number is an IEEE-754 binary64 value. *)
Abbreviation number := spec_float.

#[warnings="-register-all"]
Inductive JSValue : Type :=
| JUndefined
| JNull
| JBool (b : bool)
| JNumber (x : number)
| JString (s : string)
| JObject (o : gmap string JSValue).

(** [ToBoolean]: what [!v] negates. *)
Definition truthy (v : JSValue) : bool :=
  match v with
  | JUndefined | JNull => false
  | JBool b => b
  | JNumber (S754_zero _) | JNumber S754_nan => false
  | JNumber _ => true
  | JString EmptyString => false
  | JString _ => true
  | JObject _ => true
  end.

(** [v === undefined] *)
Definition isUndefined (v : JSValue) : bool :=
  match v with
  | JUndefined => true
  | _ => false
  end.

(** [o.k] on an object: an absent key reads as [undefined]. *)
Definition prop (o : gmap string JSValue) (k : string) : JSValue :=
  default JUndefined (o !! k).

(** ASCII letters only: ticker symbols are ASCII, every other character is
    left as it is. *)
Definition upperChar (c : ascii) : ascii :=
  let n := nat_of_ascii c in
  if ((97 <=? n) && (n <=? 122))%nat then ascii_of_nat (n - 32) else c.

Definition lowerChar (c : ascii) : ascii :=
  let n := nat_of_ascii c in
  if ((65 <=? n) && (n <=? 90))%nat then ascii_of_nat (n + 32) else c.

(** [String.prototype.toUpperCase] *)
Fixpoint toUpperCase (s : string) : string :=
  match s with
  | EmptyString => EmptyString
  | String c s' => String (upperChar c) (toUpperCase s')
  end.

Fixpoint toLowerCase (s : string) : string :=
  match s with
  | EmptyString => EmptyString
  | String c s' => String (lowerChar c) (toLowerCase s')
  end.

(** Two strings are casings of the same symbol when they agree once the
    case of their letters is forgotten. *)
Definition sameSymbol (s1 s2 : string) : Prop :=
  toLowerCase s1 = toLowerCase s2.

(** ** Exceptions and the handler monad *)

Inductive Exn : Type :=
| TypeError        (* destructuring [undefined] or [null] *)
| AxiosError       (* network error, timeout or non-2xx answer *)
| CastError        (* a value the schema cannot take *)
| DuplicateKey     (* unique index on [symbol] *)
| StoreError.      (* the database call rejected *)

Inductive Result (A : Type) : Type :=
| Ok (a : A)
| Throw (e : Exn).
Arguments Ok {A} a.
Arguments Throw {A} e.

(** ** The data model *)

Record StockRecord : Type := mkStock {
  symbol : string;
  name : string;
  price : number;
  change : number;
  lastUpdated : Z
}.

(** The collection, in insertion order. *)
Abbreviation Store := (list StockRecord).

(** An [async] body: it reads and writes the collection and either returns
    or throws; what was written before a throw stays written. *)
Definition M (A : Type) : Type := Store -> Result A * Store.

#[export] Instance M_ret : MRet M := fun A a db => (Ok a, db).
#[export] Instance M_bind : MBind M := fun A B f m db =>
  match m db with
  | (Ok a, db') => f a db'
  | (Throw e, db') => (Throw e, db')
  end.

Definition throw {A : Type} (e : Exn) : M A := fun db => (Throw e, db).

(** ** The environment of one request *)

Inductive StoreOp : Type :=
| OpFind | OpFindOne | OpSave | OpFindOneAndUpdate | OpFindOneAndDelete.

(** What a handler reads from outside during one request: the clock
    ([Date.now()]), whether a database call of a given kind rejects, and the
    outcome of the outbound [axios.get] ([Ok] carries [response.data]).
    No handler issues the same kind of database call twice. *)
Record Env : Type := mkEnv {
  now : Z;
  storeFails : StoreOp -> bool;
  axiosGet : string -> Result JSValue
}.

(** ** The Stock model *)

(** A mongoose document in the hands of a handler: fields as they were
    assigned, not yet cast. *)
Record Document : Type := mkDoc {
  isNew : bool;
  d_symbol : JSValue;
  d_name : JSValue;
  d_price : JSValue;
  d_change : JSValue;
  d_lastUpdated : Z
}.

(** Modelled from the spec: the schema of [./models/Stock] is not part of
    the sources at hand. The data model gives [symbol] and [name] as strings
    and [price] and [change] as numbers; a value of the declared type is
    stored as given (no change of case), any other value is refused. *)
Definition castString (v : JSValue) : option string :=
  match v with
  | JString s => Some s
  | _ => None
  end.

Definition castNumber (v : JSValue) : option number :=
  match v with
  | JNumber x => Some x
  | _ => None
  end.

Definition castDoc (d : Document) : option StockRecord :=
  s ← castString (d_symbol d);
  n ← castString (d_name d);
  p ← castNumber (d_price d);
  c ← castNumber (d_change d);
  Some (mkStock s n p c (d_lastUpdated d)).

Definition hydrate (r : StockRecord) : Document :=
  mkDoc false (JString (symbol r)) (JString (name r))
        (JNumber (price r)) (JNumber (change r)) (lastUpdated r).

(** Modelled from the spec: [new Stock({symbol, name, price, change})];
    a new record has [lastUpdated] set to now. *)
Definition newStock (env : Env) (sym nm pr ch : JSValue) : Document :=
  mkDoc true sym nm pr ch (now env).

Definition hasSymbol (s : string) (r : StockRecord) : bool :=
  String.eqb (symbol r) s.

(** The first record filed under [s]. *)
Definition findDoc (s : string) (db : Store) : option StockRecord :=
  List.find (hasSymbol s) db.

(** Replace the first record filed under [s]. *)
Fixpoint replaceDoc (s : string) (r' : StockRecord) (db : Store) : Store :=
  match db with
  | [] => []
  | r :: rest => if hasSymbol s r then r' :: rest else r :: replaceDoc s r' rest
  end.

(** Remove the first record filed under [s]. *)
Fixpoint removeDoc (s : string) (db : Store) : Store :=
  match db with
  | [] => []
  | r :: rest => if hasSymbol s r then rest else r :: removeDoc s rest
  end.

(** Modelled from the spec: the store primitives of the Stock model
    (find-all, find-by-symbol, save, update-by-symbol, delete-by-symbol over
    a collection keyed by [symbol], listed in insertion order). *)
Definition find (env : Env) : M (list StockRecord) := fun db =>
  if storeFails env OpFind then (Throw StoreError, db) else (Ok db, db).

Definition findOne (env : Env) (sym : JSValue) : M (option Document) := fun db =>
  if storeFails env OpFindOne then (Throw StoreError, db)
  else match castString sym with
       | None => (Throw CastError, db)
       | Some s => (Ok (hydrate <$> findDoc s db), db)
       end.

(** [doc.save()]: insert a new document, write back a fetched one. The
    saved document is what [res.json] later serialises. *)
Definition save (env : Env) (d : Document) : M StockRecord := fun db =>
  if storeFails env OpSave then (Throw StoreError, db)
  else match castDoc d with
       | None => (Throw CastError, db)
       | Some r =>
           if isNew d
           then match findDoc (symbol r) db with
                | Some _ => (Throw DuplicateKey, db)
                | None => (Ok r, db ++ [r])
                end
           else (Ok r, replaceDoc (symbol r) r db)
       end.

(** [findOneAndUpdate({symbol}, {price, change, lastUpdated}, {new: true})] *)
Definition findOneAndUpdate (env : Env) (s : string) (pr ch : JSValue) (t : Z)
  : M (option StockRecord) := fun db =>
  if storeFails env OpFindOneAndUpdate then (Throw StoreError, db)
  else match castNumber pr, castNumber ch with
       | Some p, Some c =>
           match findDoc s db with
           | None => (Ok None, db)
           | Some r =>
               let r' := mkStock (symbol r) (name r) p c t in
               (Ok (Some r'), replaceDoc s r' db)
           end
       | _, _ => (Throw CastError, db)
       end.

(** [findOneAndDelete({symbol})] *)
Definition findOneAndDelete (env : Env) (s : string)
  : M (option StockRecord) := fun db =>
  if storeFails env OpFindOneAndDelete then (Throw StoreError, db)
  else match findDoc s db with
       | None => (Ok None, db)
       | Some r => (Ok (Some r), removeDoc s db)
       end.

(** ** Responses *)

Inductive Payload : Type :=
| PStocks (l : list StockRecord)
| PStock (r : StockRecord)
| PError (error : string)
| PMessage (message : string).

Record Response : Type := mkResponse {
  status : nat;
  payload : Payload
}.

(** [res.json(x)] answers with status 200 unless [res.status] was called. *)
Definition json (p : Payload) : Response := mkResponse 200 p.
Definition statusJson (code : nat) (p : Payload) : Response := mkResponse code p.

(** [try { body } catch (err) { handler }] around a whole route. *)
Definition tryCatch (body : M Response) (handler : Exn -> Response)
  : Store -> Response * Store := fun db =>
  match body db with
  | (Ok res, db') => (res, db')
  | (Throw e, db') => (handler e, db')
  end.

(** [const { ... } = v]: destructuring [undefined] or [null] throws; a
    primitive has none of the properties read here. *)
Definition destructure (v : JSValue) : M (gmap string JSValue) :=
  match v with
  | JUndefined | JNull => throw TypeError
  | JObject o => mret o
  | _ => mret ∅
  end.

(** ** The routes *)

(** GET /api/stocks *)
Definition getStocks (env : Env) : Store -> Response * Store :=
  tryCatch
    (stocks ← find env;
     mret (json (PStocks stocks)))
    (fun _ => statusJson 500 (PError "Server error")).

(** POST /api/stocks; [body] is [req.body] as [express.json()] parsed it. *)
Definition postStocks (env : Env) (body : gmap string JSValue)
  : Store -> Response * Store :=
  tryCatch
    (let symbol := prop body "symbol" in
     let name := prop body "name" in
     let price := prop body "price" in
     let change := prop body "change" in
     if negb (truthy symbol) || negb (truthy name)
        || isUndefined price || isUndefined change
     then mret (statusJson 400 (PError "Missing required fields"))
     else
       stock ← findOne env symbol;
       match stock with
       | Some stock =>
           let stock := mkDoc (isNew stock) (d_symbol stock) (d_name stock)
                              price change (now env) in
           saved ← save env stock;
           mret (json (PStock saved))
       | None =>
           let stock := newStock env symbol name price change in
           saved ← save env stock;
           mret (statusJson 201 (PStock saved))
       end)
    (fun _ => statusJson 500 (PError "Server error")).

(** PUT /api/stocks/:symbol; [param] is [req.params.symbol]. *)
Definition putStock (env : Env) (param : string) (body : gmap string JSValue)
  : Store -> Response * Store :=
  tryCatch
    (let price := prop body "price" in
     let change := prop body "change" in
     if isUndefined price || isUndefined change
     then mret (statusJson 400 (PError "Missing price or change fields"))
     else
       stock ← findOneAndUpdate env (toUpperCase param) price change (now env);
       match stock with
       | None => mret (statusJson 404 (PError "Stock not found"))
       | Some stock => mret (json (PStock stock))
       end)
    (fun _ => statusJson 500 (PError "Server error")).

(** DELETE /api/stocks/:symbol *)
Definition deleteStock (env : Env) (param : string)
  : Store -> Response * Store :=
  tryCatch
    (stock ← findOneAndDelete env (toUpperCase param);
     match stock with
     | None => mret (statusJson 404 (PError "Stock not found"))
     | Some _ =>
         mret (json (PMessage
                 ("Stock " +:+ toUpperCase param +:+ " deleted successfully")))
     end)
    (fun _ => statusJson 500 (PError "Server error")).

(** GET /api/search/:symbol *)
Definition searchStock (env : Env) (param : string)
  : Store -> Response * Store :=
  tryCatch
    (let symbol := toUpperCase param in
     apiResponse ← (fun db =>
       (axiosGet env ("https://api.example.com/stocks/" +:+ symbol), db));
     data ← destructure apiResponse;
     let name := prop data "name" in
     let price := prop data "price" in
     let change := prop data "change" in
     stock ← findOne env (JString symbol);
     match stock with
     | Some stock =>
         let stock := mkDoc (isNew stock) (d_symbol stock) (d_name stock)
                            price change (now env) in
         saved ← save env stock;
         mret (json (PStock saved))
     | None =>
         let stock := newStock env (JString symbol) name price change in
         saved ← save env stock;
         mret (json (PStock saved))
     end)
    (fun _ => statusJson 500 (PError "Stock not found or API error")).

(** ** Sample data *)

Module Sample.

(** 150, 155, 1.2 (nearest binary64), 2 and 0. *)
Definition n150 : number := S754_finite false 75 1.
Definition n155 : number := S754_finite false 155 0.
Definition n1_2 : number := S754_finite false 5404319552844595 (-52).
Definition n2 : number := S754_finite false 1 1.
Definition n0 : number := S754_zero false.

Definition apple : StockRecord := mkStock "AAPL" "Apple" n150 n1_2 1000.

Definition mkBody (sym nm pr ch : JSValue) : gmap string JSValue :=
  <["symbol" := sym]> (<["name" := nm]> (<["price" := pr]> (<["change" := ch]> ∅))).

(** [{symbol: "AAPL", name: "Apple", price: 150, change: 1.2}] *)
Definition applePayload : gmap string JSValue :=
  mkBody (JString "AAPL") (JString "Apple") (JNumber n150) (JNumber n1_2).

(** [{symbol: "AAPL", name: "Apple Inc.", price: 155, change: 2}] *)
Definition renamedPayload : gmap string JSValue :=
  mkBody (JString "AAPL") (JString "Apple Inc.") (JNumber n155) (JNumber n2).

(** [{price: 155, change: 2}] *)
Definition pricePayload : gmap string JSValue :=
  <["price" := JNumber n155]> (<["change" := JNumber n2]> ∅).

(** [{symbol: "", name: "Apple", price: 150, change: 1.2}] *)
Definition emptySymbolPayload : gmap string JSValue :=
  mkBody (JString "") (JString "Apple") (JNumber n150) (JNumber n1_2).

(** [{symbol: "AAPL", name: "Apple", price: 0, change: 0}] *)
Definition zeroPricePayload : gmap string JSValue :=
  mkBody (JString "AAPL") (JString "Apple") (JNumber n0) (JNumber n0).

(** [{name: "Apple", price: 155, change: 2}] as the quote service may
    answer. *)
Definition appleQuote : gmap string JSValue :=
  <["name" := JString "Apple"]> pricePayload.

(** [{name: "Apple"}]: a quote without price and change. *)
Definition nameOnlyQuote : gmap string JSValue :=
  <["name" := JString "Apple"]> ∅.

(** The store answers, the quote service does not. *)
Definition quiet (t : Z) : Env :=
  mkEnv t (fun _ => false) (fun _ => Throw AxiosError).

(** The store answers and the quote service answers [data] to every
    request. *)
Definition quoting (t : Z) (data : JSValue) : Env :=
  mkEnv t (fun _ => false) (fun _ => Ok data).

End Sample.

(** ** Vocabulary of the statements *)

Definition serverError : Response := mkResponse 500 (PError "Server error").
Definition searchError : Response :=
  mkResponse 500 (PError "Stock not found or API error").

(** The address the search route asks for a quote. *)
Definition quoteUrl (param : string) : string :=
  "https://api.example.com/stocks/" +:+ toUpperCase param.

(** The request body carries a symbol and a name that are non-empty strings
    and a price and a change that are numbers. *)
Definition validPayload (body : gmap string JSValue)
  (s n : string) (p c : number) : Prop :=
  prop body "symbol" = JString s /\ s <> "" /\
  prop body "name" = JString n /\ n <> "" /\
  prop body "price" = JNumber p /\ prop body "change" = JNumber c.

(** The quote service answered with an object whose price and change are
    numbers. *)
Definition pricedQuote (data : gmap string JSValue) (p c : number) : Prop :=
  prop data "price" = JNumber p /\ prop data "change" = JNumber c.

(** A record without its time stamp. *)
Definition fields (r : StockRecord) : string * string * number * number :=
  (symbol r, name r, price r, change r).

(** No two records are filed under one symbol. *)
Definition uniqueSymbols (db : Store) : Prop := List.NoDup (List.map symbol db).

(** Lines 122-135 of the search route: what happens once the quote has been
    read into [data]. *)
Definition storeQuote (env : Env) (symbol : string)
  (data : gmap string JSValue) : M Response :=
  stock ← findOne env (JString symbol);
  match stock with
  | Some stock =>
      let stock := mkDoc (isNew stock) (d_symbol stock) (d_name stock)
                         (prop data "price") (prop data "change") (now env) in
      saved ← save env stock;
      mret (json (PStock saved))
  | None =>
      let stock := newStock env (JString symbol) (prop data "name")
                            (prop data "price") (prop data "change") in
      saved ← save env stock;
      mret (json (PStock saved))
  end.

(** The upsert as the interface description words it: the answer is 200 with
    a record that carries the [name], [price] and [change] of the request and
    the current time. *)
Definition upsertOverwritesAll (env : Env) (body : gmap string JSValue)
  (db : Store) (n : string) (p c : number) : Prop :=
  exists r',
    (postStocks env body db).1 = mkResponse 200 (PStock r') /\
    name r' = n /\ price r' = p /\ change r' = c /\
    lastUpdated r' = now env.

(** The validation of POST /api/stocks as the interface description words
    it: 400 exactly when one of the four keys is absent from the body. *)
Definition rejectsExactlyMissing (env : Env) (body : gmap string JSValue)
  (db : Store) : Prop :=
  status (postStocks env body db).1 = 400%nat <->
  (body !! "symbol" = None \/ body !! "name" = None \/
   body !! "price" = None \/ body !! "change" = None).

(** The quote fetch as the interface description words it: an answer that
    lacks [name], [price] or [change] ends in the 500 of the search route and
    nothing is stored. *)
Definition malformedQuoteRejected (env : Env) (param : string) (db : Store)
  : Prop :=
  forall data : gmap string JSValue,
    axiosGet env (quoteUrl param) = Ok (JObject data) ->
    data !! "name" = None \/ data !! "price" = None \/ data !! "change" = None ->
    searchStock env param db = (searchError, db).

(** After a successful mutation of the record [r] filed under [s], the
    record carries a strictly later [lastUpdated]. *)
Definition stampStrictlyLater (out : Response * Store) (s : string)
  (r : StockRecord) : Prop :=
  status out.1 = 200%nat ->
  exists r', findDoc s out.2 = Some r' /\ lastUpdated r < lastUpdated r'.

(** After a successful mutation of the record [r] filed under [s], the
    record carries the clock reading of the request. *)
Definition stampedNow (env : Env) (out : Response * Store) (s : string)
  (r : StockRecord) : Prop :=
  status out.1 = 200%nat ->
  exists r', findDoc s out.2 = Some r' /\ lastUpdated r' = now env /\
             (lastUpdated r < lastUpdated r' <-> lastUpdated r < now env).

(** ** The routing table *)

(** A request that reaches one of the five JSON routes, with what the
    handler reads of it: [req.body] and [req.params.symbol]. *)
Inductive Request : Type :=
| GET_stocks
| POST_stocks (body : gmap string JSValue)
| PUT_stock (param : string) (body : gmap string JSValue)
| DELETE_stock (param : string)
| GET_search (param : string).

(** [app.get], [app.post], [app.put], [app.delete] of lines 24, 38, 72, 97
    and 114. *)
Definition handle (env : Env) (req : Request) : Store -> Response * Store :=
  match req with
  | GET_stocks => getStocks env
  | POST_stocks body => postStocks env body
  | PUT_stock param body => putStock env param body
  | DELETE_stock param => deleteStock env param
  | GET_search param => searchStock env param
  end.

(** Requests handled one after the other, each in its own environment. *)
Fixpoint serve (reqs : list (Env * Request)) (db : Store) : Store :=
  match reqs with
  | [] => db
  | (env, req) :: rest => serve rest (handle env req db).2
  end.

(** The symbol a request looks up in the collection, if any. *)
Definition target (req : Request) : option string :=
  match req with
  | GET_stocks => None
  | POST_stocks body => castString (prop body "symbol")
  | PUT_stock param _ | DELETE_stock param | GET_search param =>
      Some (toUpperCase param)
  end.

(** The records filed under another symbol than [s], in order. *)
Definition others (s : string) (db : Store) : Store :=
  List.filter (fun r => negb (hasSymbol s r)) db.

(** The status codes a route sends. *)
Definition statuses (req : Request) : list nat :=
  match req with
  | GET_stocks => [200; 500]
  | POST_stocks _ => [200; 201; 400; 500]
  | PUT_stock _ _ => [200; 400; 404; 500]
  | DELETE_stock _ => [200; 404; 500]
  | GET_search _ => [200; 500]
  end%nat.

(** A symbol on which [toUpperCase] changes nothing. *)
Definition isUpperCase (s : string) : Prop := toUpperCase s = s.

Ltac run_route :=
  unfold getStocks, postStocks, putStock, deleteStock, searchStock, tryCatch,
    findOne, save, findOneAndUpdate, findOneAndDelete, find, destructure,
    throw, newStock, json, statusJson, mbind, M_bind, mret, M_ret in *;
  cbn beta iota in *.

(** ** Facts about strings and casing *)

Lemma upperChar_lowerChar c : upperChar (lowerChar c) = upperChar c.
Proof. destruct c as [[] [] [] [] [] [] [] []]; reflexivity. Qed.

Lemma toUpperCase_toLowerCase s : toUpperCase (toLowerCase s) = toUpperCase s.
Proof.
  induction s as [|c s IH]; simpl; [reflexivity|].
  now rewrite upperChar_lowerChar, IH.
Qed.

Lemma sameSymbol_toUpperCase s1 s2 :
  sameSymbol s1 s2 -> toUpperCase s1 = toUpperCase s2.
Proof.
  unfold sameSymbol. intros H.
  rewrite <- (toUpperCase_toLowerCase s1), H.
  apply toUpperCase_toLowerCase.
Qed.

Lemma upperChar_idemp c : upperChar (upperChar c) = upperChar c.
Proof. destruct c as [[] [] [] [] [] [] [] []]; reflexivity. Qed.

Lemma toUpperCase_idemp s : toUpperCase (toUpperCase s) = toUpperCase s.
Proof.
  induction s as [|c s IH]; simpl; [reflexivity|].
  now rewrite upperChar_idemp, IH.
Qed.

(** ** Facts about the collection *)

Lemma hasSymbol_true s r : hasSymbol s r = true <-> symbol r = s.
Proof. unfold hasSymbol. apply String.eqb_eq. Qed.

Lemma hasSymbol_false s r : hasSymbol s r = false <-> symbol r <> s.
Proof. unfold hasSymbol. apply String.eqb_neq. Qed.

Lemma findDoc_symbol s db r : findDoc s db = Some r -> symbol r = s.
Proof.
  unfold findDoc. intros H. apply List.find_some in H.
  now apply hasSymbol_true.
Qed.

Lemma findDoc_cons s r db :
  findDoc s (r :: db) = if hasSymbol s r then Some r else findDoc s db.
Proof. reflexivity. Qed.

Lemma findDoc_None s db :
  findDoc s db = None <-> (forall r, In r db -> symbol r <> s).
Proof.
  unfold findDoc. split.
  - intros H r Hin. apply hasSymbol_false.
    exact (List.find_none _ _ H r Hin).
  - induction db as [|r db IH]; intros H; simpl; [reflexivity|].
    destruct (hasSymbol s r) eqn:E.
    + apply hasSymbol_true in E. exfalso. apply (H r); [now left | exact E].
    + apply IH. intros r' Hin. apply H. now right.
Qed.

Lemma findDoc_app_absent s db r :
  findDoc s db = None ->
  findDoc s (db ++ [r]) = if hasSymbol s r then Some r else None.
Proof.
  induction db as [|r0 db IH]; intros H; [reflexivity|].
  rewrite <- app_comm_cons, findDoc_cons. rewrite findDoc_cons in H.
  destruct (hasSymbol s r0); [discriminate|].
  now apply IH.
Qed.

Lemma findDoc_split s db r :
  findDoc s db = Some r ->
  exists l1 l2, db = l1 ++ r :: l2 /\ findDoc s l1 = None.
Proof.
  induction db as [|r0 db IH]; [discriminate|].
  rewrite findDoc_cons. destruct (hasSymbol s r0) eqn:E.
  - intros [= ->]. now exists [], db.
  - intros H. destruct (IH H) as (l1 & l2 & -> & Hl1).
    exists (r0 :: l1), l2. split; [reflexivity|].
    rewrite findDoc_cons, E. exact Hl1.
Qed.

Lemma replaceDoc_absent s r' db :
  findDoc s db = None -> replaceDoc s r' db = db.
Proof.
  induction db as [|r0 db IH]; [reflexivity|].
  rewrite findDoc_cons. simpl. destruct (hasSymbol s r0); [discriminate|].
  intros H. now rewrite IH.
Qed.

Lemma replaceDoc_split s r r' l1 l2 :
  findDoc s l1 = None -> symbol r = s ->
  replaceDoc s r' (l1 ++ r :: l2) = l1 ++ r' :: l2.
Proof.
  intros Hl1 Hr. induction l1 as [|r0 l1 IH]; simpl.
  - apply hasSymbol_true in Hr. now rewrite Hr.
  - rewrite findDoc_cons in Hl1. destruct (hasSymbol s r0); [discriminate|].
    now rewrite IH.
Qed.

Lemma removeDoc_absent s db :
  findDoc s db = None -> removeDoc s db = db.
Proof.
  induction db as [|r0 db IH]; [reflexivity|].
  rewrite findDoc_cons. simpl. destruct (hasSymbol s r0); [discriminate|].
  intros H. now rewrite IH.
Qed.

Lemma removeDoc_split s r l1 l2 :
  findDoc s l1 = None -> symbol r = s ->
  removeDoc s (l1 ++ r :: l2) = l1 ++ l2.
Proof.
  intros Hl1 Hr. induction l1 as [|r0 l1 IH]; simpl.
  - apply hasSymbol_true in Hr. now rewrite Hr.
  - rewrite findDoc_cons in Hl1. destruct (hasSymbol s r0); [discriminate|].
    now rewrite IH.
Qed.

Lemma findDoc_replaceDoc s r' db r :
  findDoc s db = Some r -> symbol r' = s ->
  findDoc s (replaceDoc s r' db) = Some r'.
Proof.
  intros H Hr'. induction db as [|r0 db IH]; [discriminate|].
  rewrite findDoc_cons in H. simpl. destruct (hasSymbol s r0) eqn:E.
  - rewrite findDoc_cons. apply hasSymbol_true in Hr'. now rewrite Hr'.
  - rewrite findDoc_cons, E. now apply IH.
Qed.

Lemma replaceDoc_twice s r1 r2 db :
  symbol r1 = s ->
  replaceDoc s r2 (replaceDoc s r1 db) = replaceDoc s r2 db.
Proof.
  intros H1. induction db as [|r0 db IH]; [reflexivity|].
  simpl. destruct (hasSymbol s r0) eqn:E; simpl.
  - apply hasSymbol_true in H1. now rewrite H1.
  - now rewrite E, IH.
Qed.

Lemma replaceDoc_appended s r r' db :
  findDoc s db = None -> symbol r = s ->
  replaceDoc s r' (db ++ [r]) = db ++ [r'].
Proof. intros. now apply replaceDoc_split. Qed.

Lemma length_replaceDoc s r' db : length (replaceDoc s r' db) = length db.
Proof.
  induction db as [|r0 db IH]; [reflexivity|].
  simpl. destruct (hasSymbol s r0); simpl; congruence.
Qed.

(** ** Running a route *)

Lemma truthy_nonempty s : s <> "" -> truthy (JString s) = true.
Proof. destruct s; [congruence | reflexivity]. Qed.

Lemma isUndefined_false v : isUndefined v = false <-> v <> JUndefined.
Proof. destruct v; simpl; split; congruence. Qed.

Lemma postStocks_existing env body db s n p c r :
  validPayload body s n p c ->
  storeFails env OpFindOne = false -> storeFails env OpSave = false ->
  findDoc s db = Some r ->
  postStocks env body db =
    (json (PStock (mkStock s (name r) p c (now env))),
     replaceDoc s (mkStock s (name r) p c (now env)) db).
Proof.
  intros (Hs & Hs' & Hn & Hn' & Hp & Hc) Hfind Hsave Hr.
  run_route. rewrite Hs, Hn, Hp, Hc, Hfind.
  rewrite !truthy_nonempty by assumption. simpl.
  rewrite Hr. simpl. rewrite Hsave. simpl.
  now rewrite (findDoc_symbol _ _ _ Hr).
Qed.

Lemma postStocks_new env body db s n p c :
  validPayload body s n p c ->
  storeFails env OpFindOne = false -> storeFails env OpSave = false ->
  findDoc s db = None ->
  postStocks env body db =
    (statusJson 201 (PStock (mkStock s n p c (now env))),
     db ++ [mkStock s n p c (now env)]).
Proof.
  intros (Hs & Hs' & Hn & Hn' & Hp & Hc) Hfind Hsave Hr.
  run_route. rewrite Hs, Hn, Hp, Hc, Hfind.
  rewrite !truthy_nonempty by assumption. simpl.
  rewrite Hr. simpl. rewrite Hsave. simpl. now rewrite Hr.
Qed.

Lemma searchStock_existing env param db data p c r :
  axiosGet env (quoteUrl param) = Ok (JObject data) ->
  pricedQuote data p c ->
  storeFails env OpFindOne = false -> storeFails env OpSave = false ->
  findDoc (toUpperCase param) db = Some r ->
  searchStock env param db =
    (json (PStock (mkStock (toUpperCase param) (name r) p c (now env))),
     replaceDoc (toUpperCase param)
       (mkStock (toUpperCase param) (name r) p c (now env)) db).
Proof.
  intros Hget (Hp & Hc) Hfind Hsave Hr. unfold quoteUrl in Hget.
  run_route. rewrite Hget, Hp, Hc, Hfind. simpl.
  rewrite Hr. simpl. rewrite Hsave. simpl.
  now rewrite (findDoc_symbol _ _ _ Hr).
Qed.

Lemma searchStock_new env param db data n p c :
  axiosGet env (quoteUrl param) = Ok (JObject data) ->
  prop data "name" = JString n -> pricedQuote data p c ->
  storeFails env OpFindOne = false -> storeFails env OpSave = false ->
  findDoc (toUpperCase param) db = None ->
  searchStock env param db =
    (json (PStock (mkStock (toUpperCase param) n p c (now env))),
     db ++ [mkStock (toUpperCase param) n p c (now env)]).
Proof.
  intros Hget Hn (Hp & Hc) Hfind Hsave Hr. unfold quoteUrl in Hget.
  run_route. rewrite Hget, Hn, Hp, Hc, Hfind. simpl.
  rewrite Hr. simpl. rewrite Hsave. simpl. now rewrite Hr.
Qed.

Lemma putStock_existing env param body db p c r :
  prop body "price" = JNumber p -> prop body "change" = JNumber c ->
  storeFails env OpFindOneAndUpdate = false ->
  findDoc (toUpperCase param) db = Some r ->
  putStock env param body db =
    (json (PStock (mkStock (symbol r) (name r) p c (now env))),
     replaceDoc (toUpperCase param)
       (mkStock (symbol r) (name r) p c (now env)) db).
Proof.
  intros Hp Hc Hup Hr. run_route. rewrite Hp, Hc, Hup. simpl.
  now rewrite Hr.
Qed.

Lemma putStock_absent env param body db p c :
  prop body "price" = JNumber p -> prop body "change" = JNumber c ->
  storeFails env OpFindOneAndUpdate = false ->
  findDoc (toUpperCase param) db = None ->
  putStock env param body db =
    (statusJson 404 (PError "Stock not found"), db).
Proof.
  intros Hp Hc Hup Hr. run_route. rewrite Hp, Hc, Hup. simpl.
  now rewrite Hr.
Qed.

(** ** Every outcome of a route *)

Lemma castString_Some v s : castString v = Some s -> v = JString s.
Proof. destruct v; simpl; congruence. Qed.

Lemma castNumber_Some v x : castNumber v = Some x -> v = JNumber x.
Proof. destruct v; simpl; congruence. Qed.

Lemma findDoc_appended s db r :
  findDoc s db = None -> symbol r = s -> findDoc s (db ++ [r]) = Some r.
Proof.
  intros H Hr. rewrite findDoc_app_absent by exact H.
  apply hasSymbol_true in Hr. now rewrite Hr.
Qed.

Lemma postStocks_cases env body db :
  postStocks env body db
    = (mkResponse 400 (PError "Missing required fields"), db) \/
  postStocks env body db = (serverError, db) \/
  (exists s r r',
     prop body "symbol" = JString s /\ findDoc s db = Some r /\
     postStocks env body db = (mkResponse 200 (PStock r'), replaceDoc s r' db) /\
     symbol r' = s /\ name r' = name r /\ lastUpdated r' = now env) \/
  (exists s r',
     prop body "symbol" = JString s /\ findDoc s db = None /\
     postStocks env body db = (mkResponse 201 (PStock r'), db ++ [r']) /\
     symbol r' = s /\ lastUpdated r' = now env).
Proof.
  run_route.
  destruct (negb (truthy (prop body "symbol")) || negb (truthy (prop body "name"))
            || isUndefined (prop body "price")
            || isUndefined (prop body "change")); [now left|].
  right.
  destruct (storeFails env OpFindOne); [now left|].
  destruct (castString (prop body "symbol")) as [s|] eqn:Hs; [|now left].
  apply castString_Some in Hs.
  destruct (findDoc s db) as [r|] eqn:Hr; simpl.
  - destruct (storeFails env OpSave); [now left|].
    unfold castDoc; simpl.
    destruct (castNumber (prop body "price")) as [p|]; [|now left].
    destruct (castNumber (prop body "change")) as [c|]; [|now left].
    simpl. right; left.
    exists s, r, (mkStock (symbol r) (name r) p c (now env)).
    rewrite (findDoc_symbol _ _ _ Hr). now repeat split.
  - destruct (storeFails env OpSave); [now left|].
    unfold castDoc; simpl. rewrite Hs. simpl.
    destruct (castString (prop body "name")) as [n|]; [|now left].
    destruct (castNumber (prop body "price")) as [p|]; [|now left].
    destruct (castNumber (prop body "change")) as [c|]; [|now left].
    simpl. rewrite Hr. right; right.
    exists s, (mkStock s n p c (now env)). now repeat split.
Qed.

Lemma putStock_cases env param body db :
  putStock env param body db
    = (mkResponse 400 (PError "Missing price or change fields"), db) \/
  putStock env param body db = (serverError, db) \/
  (findDoc (toUpperCase param) db = None /\
   putStock env param body db
     = (mkResponse 404 (PError "Stock not found"), db)) \/
  (exists r r',
     findDoc (toUpperCase param) db = Some r /\
     putStock env param body db
       = (mkResponse 200 (PStock r'), replaceDoc (toUpperCase param) r' db) /\
     symbol r' = toUpperCase param /\ name r' = name r /\
     lastUpdated r' = now env).
Proof.
  run_route.
  destruct (isUndefined (prop body "price") || isUndefined (prop body "change"));
    [now left|].
  right.
  destruct (storeFails env OpFindOneAndUpdate); [now left|].
  destruct (castNumber (prop body "price")) as [p|]; [|now left].
  destruct (castNumber (prop body "change")) as [c|]; [|now left].
  destruct (findDoc (toUpperCase param) db) as [r|] eqn:Hr.
  - right; right. exists r, (mkStock (symbol r) (name r) p c (now env)).
    rewrite (findDoc_symbol _ _ _ Hr). now repeat split.
  - right; left. now split.
Qed.

Lemma deleteStock_cases env param db :
  deleteStock env param db = (serverError, db) \/
  (findDoc (toUpperCase param) db = None /\
   deleteStock env param db
     = (mkResponse 404 (PError "Stock not found"), db)) \/
  (exists r,
     findDoc (toUpperCase param) db = Some r /\
     deleteStock env param db
       = (mkResponse 200
            (PMessage ("Stock " +:+ toUpperCase param +:+ " deleted successfully")),
          removeDoc (toUpperCase param) db)).
Proof.
  run_route.
  destruct (storeFails env OpFindOneAndDelete); [now left|].
  destruct (findDoc (toUpperCase param) db) as [r|] eqn:Hr.
  - right; right. now exists r.
  - right; left. now split.
Qed.

Lemma searchStock_unfold env param db :
  searchStock env param db =
  match axiosGet env (quoteUrl param) with
  | Throw _ | Ok JUndefined | Ok JNull => (searchError, db)
  | Ok (JObject o) =>
      tryCatch (storeQuote env (toUpperCase param) o) (fun _ => searchError) db
  | Ok _ =>
      tryCatch (storeQuote env (toUpperCase param) ∅) (fun _ => searchError) db
  end.
Proof.
  unfold searchStock, quoteUrl, tryCatch, storeQuote.
  cbn [mbind M_bind].
  destruct (axiosGet env _) as [[]|]; reflexivity.
Qed.

Lemma storeQuote_cases env s data db :
  let out := tryCatch (storeQuote env s data) (fun _ => searchError) db in
  out = (searchError, db) \/
  (exists r r',
     findDoc s db = Some r /\
     out = (mkResponse 200 (PStock r'), replaceDoc s r' db) /\
     symbol r' = s /\ name r' = name r /\
     prop data "price" = JNumber (price r') /\
     prop data "change" = JNumber (change r') /\
     lastUpdated r' = now env) \/
  (exists r',
     findDoc s db = None /\
     out = (mkResponse 200 (PStock r'), db ++ [r']) /\
     symbol r' = s /\ prop data "name" = JString (name r') /\
     prop data "price" = JNumber (price r') /\
     prop data "change" = JNumber (change r') /\
     lastUpdated r' = now env).
Proof.
  unfold storeQuote. run_route.
  destruct (storeFails env OpFindOne); [now left|].
  simpl.
  destruct (findDoc s db) as [r|] eqn:Hr; simpl.
  - destruct (storeFails env OpSave); [now left|].
    unfold castDoc; simpl.
    destruct (castNumber (prop data "price")) as [p|] eqn:Hp; [|now left].
    destruct (castNumber (prop data "change")) as [c|] eqn:Hc; [|now left].
    apply castNumber_Some in Hp, Hc.
    simpl. right; left.
    exists r, (mkStock (symbol r) (name r) p c (now env)).
    rewrite (findDoc_symbol _ _ _ Hr). now repeat split.
  - destruct (storeFails env OpSave); [now left|].
    unfold castDoc; simpl.
    destruct (castString (prop data "name")) as [n|] eqn:Hn; [|now left].
    destruct (castNumber (prop data "price")) as [p|] eqn:Hp; [|now left].
    destruct (castNumber (prop data "change")) as [c|] eqn:Hc; [|now left].
    apply castString_Some in Hn. apply castNumber_Some in Hp, Hc.
    simpl. rewrite Hr. right; right.
    exists (mkStock s n p c (now env)). now repeat split.
Qed.

Lemma searchStock_cases env param db :
  searchStock env param db = (searchError, db) \/
  (exists r r',
     findDoc (toUpperCase param) db = Some r /\
     searchStock env param db
       = (mkResponse 200 (PStock r'), replaceDoc (toUpperCase param) r' db) /\
     symbol r' = toUpperCase param /\ name r' = name r /\
     lastUpdated r' = now env) \/
  (exists r',
     findDoc (toUpperCase param) db = None /\
     searchStock env param db = (mkResponse 200 (PStock r'), db ++ [r']) /\
     symbol r' = toUpperCase param /\ lastUpdated r' = now env).
Proof.
  rewrite searchStock_unfold.
  assert (H : forall o,
    let out := tryCatch (storeQuote env (toUpperCase param) o)
                 (fun _ => searchError) db in
    out = (searchError, db) \/
    (exists r r',
       findDoc (toUpperCase param) db = Some r /\
       out = (mkResponse 200 (PStock r'), replaceDoc (toUpperCase param) r' db) /\
       symbol r' = toUpperCase param /\ name r' = name r /\
       lastUpdated r' = now env) \/
    (exists r',
       findDoc (toUpperCase param) db = None /\
       out = (mkResponse 200 (PStock r'), db ++ [r']) /\
       symbol r' = toUpperCase param /\ lastUpdated r' = now env)).
  { intros o.
    destruct (storeQuote_cases env (toUpperCase param) o db)
      as [H | [(r & r' & ? & ? & ? & ? & ? & ? & ?) | (r' & ? & ? & ? & ? & ? & ? & ?)]].
    - now left.
    - right; left. now exists r, r'.
    - right; right. now exists r'. }
  destruct (axiosGet env (quoteUrl param)) as [[]|]; try apply H; now left.
Qed.

(** ** Uniqueness of symbols *)

Lemma map_symbol_replaceDoc s r' db :
  symbol r' = s -> List.map symbol (replaceDoc s r' db) = List.map symbol db.
Proof.
  intros H. induction db as [|r0 db IH]; [reflexivity|].
  simpl. destruct (hasSymbol s r0) eqn:E; simpl.
  - apply hasSymbol_true in E. congruence.
  - now rewrite IH.
Qed.

Lemma findDoc_None_notin s db :
  findDoc s db = None <-> ~ In s (List.map symbol db).
Proof.
  rewrite findDoc_None. split.
  - intros H Hin. apply List.in_map_iff in Hin as (r & Hr & Hin).
    exact (H r Hin Hr).
  - intros H r Hin Hr. apply H. rewrite <- Hr. now apply List.in_map.
Qed.

Lemma uniqueSymbols_replaceDoc s r' db :
  symbol r' = s -> uniqueSymbols db -> uniqueSymbols (replaceDoc s r' db).
Proof. unfold uniqueSymbols. intros H. now rewrite map_symbol_replaceDoc. Qed.

Lemma uniqueSymbols_appended r db :
  findDoc (symbol r) db = None -> uniqueSymbols db -> uniqueSymbols (db ++ [r]).
Proof.
  unfold uniqueSymbols. intros H Hu. rewrite List.map_app. simpl.
  apply findDoc_None_notin in H.
  apply List.NoDup_rev in Hu. rewrite <- (List.rev_involutive (_ ++ _)).
  apply List.NoDup_rev. rewrite List.rev_app_distr. simpl.
  constructor; [|exact Hu]. now rewrite <- List.in_rev.
Qed.

Lemma uniqueSymbols_removed s r l1 l2 :
  symbol r = s -> uniqueSymbols (l1 ++ r :: l2) ->
  uniqueSymbols (l1 ++ l2) /\ findDoc s (l1 ++ l2) = None.
Proof.
  unfold uniqueSymbols. intros Hr Hu.
  rewrite List.map_app in Hu. simpl in Hu. rewrite Hr in Hu. split.
  - rewrite List.map_app. exact (List.NoDup_remove_1 _ _ _ Hu).
  - apply findDoc_None_notin. rewrite List.map_app.
    exact (List.NoDup_remove_2 _ _ _ Hu).
Qed.

(** Every route keeps the symbols of the collection distinct. *)
Lemma routes_keep_uniqueSymbols env param body db :
  uniqueSymbols db ->
  uniqueSymbols (getStocks env db).2 /\
  uniqueSymbols (postStocks env body db).2 /\
  uniqueSymbols (putStock env param body db).2 /\
  uniqueSymbols (deleteStock env param db).2 /\
  uniqueSymbols (searchStock env param db).2.
Proof.
  intros Hu. repeat split.
  - unfold getStocks. run_route. now destruct (storeFails env OpFind).
  - destruct (postStocks_cases env body db)
      as [H | [H | [(s & r & r' & _ & _ & H & Hs & _) | (s & r' & _ & Hr & H & Hs & _)]]];
      rewrite H; simpl; try assumption.
    + now apply uniqueSymbols_replaceDoc.
    + apply uniqueSymbols_appended; [now rewrite Hs | assumption].
  - destruct (putStock_cases env param body db)
      as [H | [H | [[_ H] | (r & r' & _ & H & Hs & _)]]];
      rewrite H; simpl; try assumption.
    now apply uniqueSymbols_replaceDoc.
  - destruct (deleteStock_cases env param db) as [H | [[_ H] | (r & Hr & H)]];
      rewrite H; simpl; try assumption.
    destruct (findDoc_split _ _ _ Hr) as (l1 & l2 & -> & Hl1).
    rewrite removeDoc_split by (exact Hl1 || exact (findDoc_symbol _ _ _ Hr)).
    exact (proj1 (uniqueSymbols_removed _ _ _ _ (findDoc_symbol _ _ _ Hr) Hu)).
  - destruct (searchStock_cases env param db)
      as [H | [(r & r' & _ & H & Hs & _) | (r' & Hr & H & Hs & _)]];
      rewrite H; simpl; try assumption.
    + now apply uniqueSymbols_replaceDoc.
    + apply uniqueSymbols_appended; [now rewrite Hs | assumption].
Qed.
(** ** POST /api/stocks on a symbol already on file *)

(** C1, as stated, fails: with AAPL on file under the name "Apple", posting
    [{symbol: "AAPL", name: "Apple Inc.", price: 155, change: 2}] answers with
    a record still named "Apple" (lines 50-52 assign [price], [change] and
    [lastUpdated] only). *)
Lemma post_existing_name_not_overwritten :
  ~ upsertOverwritesAll (Sample.quiet 2000) Sample.renamedPayload
      [Sample.apple] "Apple Inc." Sample.n155 Sample.n2.
Proof.
  intros (r' & Hres & Hname & _).
  vm_compute in Hres. injection Hres as <-. discriminate Hname.
Qed.

(** C1 (amended): POST /api/stocks on a symbol that already has a record
    overwrites the record's [price] and [change] with the request-body
    values, refreshes [lastUpdated], keeps the stored [name], and answers 200
    with the updated record. *)
Theorem post_existing_updates_price_change
  env body db (s n : string) (p c : number) (r : StockRecord) :
  validPayload body s n p c ->
  storeFails env OpFindOne = false -> storeFails env OpSave = false ->
  findDoc s db = Some r ->
  exists r',
    postStocks env body db = (mkResponse 200 (PStock r'), replaceDoc s r' db) /\
    findDoc s (postStocks env body db).2 = Some r' /\
    symbol r' = s /\ name r' = name r /\
    price r' = p /\ change r' = c /\ lastUpdated r' = now env.
Proof.
  intros Hv Hfind Hsave Hr.
  exists (mkStock s (name r) p c (now env)).
  rewrite (postStocks_existing _ _ _ _ _ _ _ _ Hv Hfind Hsave Hr).
  repeat split. simpl. now apply findDoc_replaceDoc with r.
Qed.

Lemma post_existing_updates_price_change_witness :
  exists r',
    postStocks (Sample.quiet 2000) Sample.renamedPayload [Sample.apple] =
      (mkResponse 200 (PStock r'), replaceDoc "AAPL" r' [Sample.apple]) /\
    findDoc "AAPL"
      (postStocks (Sample.quiet 2000) Sample.renamedPayload [Sample.apple]).2
      = Some r' /\
    symbol r' = "AAPL" /\ name r' = "Apple" /\
    price r' = Sample.n155 /\ change r' = Sample.n2 /\
    lastUpdated r' = 2000.
Proof.
  apply (post_existing_updates_price_change (Sample.quiet 2000)
           Sample.renamedPayload [Sample.apple] "AAPL" "Apple Inc."
           Sample.n155 Sample.n2 Sample.apple).
  - repeat split; try reflexivity; discriminate.
  - reflexivity.
  - reflexivity.
  - reflexivity.
Defined.

(** ** Casing of the symbol in the path *)

(** C2: PUT /api/stocks/:symbol, DELETE /api/stocks/:symbol and
    GET /api/search/:symbol, called with two casings of one symbol, look up
    the same record, answer alike and leave the same store. *)
Theorem symbol_lookup_ignores_case env body db (s1 s2 : string) :
  sameSymbol s1 s2 ->
  findDoc (toUpperCase s1) db = findDoc (toUpperCase s2) db /\
  putStock env s1 body db = putStock env s2 body db /\
  deleteStock env s1 db = deleteStock env s2 db /\
  searchStock env s1 db = searchStock env s2 db.
Proof.
  intros H. apply sameSymbol_toUpperCase in H.
  unfold putStock, deleteStock, searchStock. now rewrite H.
Qed.

Lemma symbol_lookup_ignores_case_witness :
  findDoc (toUpperCase "aapl") [Sample.apple]
    = findDoc (toUpperCase "AAPL") [Sample.apple] /\
  putStock (Sample.quiet 2000) "aapl" Sample.pricePayload [Sample.apple]
    = putStock (Sample.quiet 2000) "AAPL" Sample.pricePayload [Sample.apple] /\
  deleteStock (Sample.quiet 2000) "aapl" [Sample.apple]
    = deleteStock (Sample.quiet 2000) "AAPL" [Sample.apple] /\
  searchStock (Sample.quiet 2000) "aapl" [Sample.apple]
    = searchStock (Sample.quiet 2000) "AAPL" [Sample.apple].
Proof.
  apply (symbol_lookup_ignores_case (Sample.quiet 2000) Sample.pricePayload
           [Sample.apple] "aapl" "AAPL").
  reflexivity.
Defined.

(** ** The quote read by the search route *)

Lemma prop_absent (o : gmap string JSValue) k :
  o !! k = None -> prop o k = JUndefined.
Proof. unfold prop. now intros ->. Qed.

Lemma storeQuote_unpriced env s data db :
  castNumber (prop data "price") = None \/
  castNumber (prop data "change") = None ->
  tryCatch (storeQuote env s data) (fun _ => searchError) db = (searchError, db).
Proof.
  intros H.
  destruct (storeQuote_cases env s data db)
    as [E | [(r & r' & _ & _ & _ & _ & Hp & Hc & _)
            | (r' & _ & _ & _ & _ & Hp & Hc & _)]];
    [exact E | |]; rewrite Hp, Hc in H; now destruct H.
Qed.

Lemma storeQuote_unnamed env s data db :
  castString (prop data "name") = None -> findDoc s db = None ->
  tryCatch (storeQuote env s data) (fun _ => searchError) db = (searchError, db).
Proof.
  intros H Hr.
  destruct (storeQuote_cases env s data db)
    as [E | [(r & r' & Hr' & _) | (r' & _ & _ & _ & Hn & _)]];
    [exact E | congruence | now rewrite Hn in H].
Qed.

(** C3, as stated, fails: with AAPL on file, a quote [{price: 155, change: 2}]
    that carries no [name] is not refused; the search route updates the
    record and answers 200 (the route reads the three fields at line 120 and
    checks none of them). *)
Lemma search_accepts_quote_without_name :
  ~ malformedQuoteRejected
      (Sample.quoting 2000 (JObject Sample.pricePayload)) "aapl" [Sample.apple].
Proof.
  intros H.
  specialize (H Sample.pricePayload eq_refl (or_introl eq_refl)).
  vm_compute in H. discriminate H.
Qed.

(** C3 (amended): the search route does not check the shape of the quote. A
    quote that lacks [price] or [change], or that lacks [name] for a symbol
    with no record yet, ends in the route's 500 with nothing stored, because
    the store refuses the write; a quote that lacks only [name] for a symbol
    already on file is accepted: price and change are updated and the answer
    is 200. *)
Theorem search_quote_not_validated env param db (data : gmap string JSValue) :
  axiosGet env (quoteUrl param) = Ok (JObject data) ->
  (data !! "price" = None \/ data !! "change" = None ->
   searchStock env param db = (searchError, db)) /\
  (data !! "name" = None -> findDoc (toUpperCase param) db = None ->
   searchStock env param db = (searchError, db)) /\
  (forall r p c,
     data !! "name" = None -> findDoc (toUpperCase param) db = Some r ->
     pricedQuote data p c ->
     storeFails env OpFindOne = false -> storeFails env OpSave = false ->
     searchStock env param db =
       (mkResponse 200 (PStock (mkStock (toUpperCase param) (name r) p c (now env))),
        replaceDoc (toUpperCase param)
          (mkStock (toUpperCase param) (name r) p c (now env)) db)).
Proof.
  intros Hget. repeat split.
  - intros H. rewrite searchStock_unfold, Hget.
    apply storeQuote_unpriced.
    destruct H as [H|H]; rewrite (prop_absent _ _ H); [now left | now right].
  - intros H Hr. rewrite searchStock_unfold, Hget.
    apply storeQuote_unnamed; [|exact Hr]. now rewrite (prop_absent _ _ H).
  - intros r p c _ Hr Hq Hfind Hsave.
    exact (searchStock_existing _ _ _ _ _ _ _ Hget Hq Hfind Hsave Hr).
Qed.

Lemma search_quote_not_validated_witness :
  searchStock (Sample.quoting 2000 (JObject Sample.nameOnlyQuote)) "aapl"
    [Sample.apple] = (searchError, [Sample.apple]) /\
  searchStock (Sample.quoting 2000 (JObject Sample.pricePayload)) "msft"
    [Sample.apple] = (searchError, [Sample.apple]) /\
  searchStock (Sample.quoting 2000 (JObject Sample.pricePayload)) "aapl"
    [Sample.apple] =
    (mkResponse 200 (PStock (mkStock "AAPL" "Apple" Sample.n155 Sample.n2 2000)),
     [mkStock "AAPL" "Apple" Sample.n155 Sample.n2 2000]).
Proof.
  split; [|split].
  - apply (proj1 (search_quote_not_validated
             (Sample.quoting 2000 (JObject Sample.nameOnlyQuote)) "aapl"
             [Sample.apple] Sample.nameOnlyQuote eq_refl)).
    left. reflexivity.
  - apply (proj1 (proj2 (search_quote_not_validated
             (Sample.quoting 2000 (JObject Sample.pricePayload)) "msft"
             [Sample.apple] Sample.pricePayload eq_refl))); reflexivity.
  - apply (proj2 (proj2 (search_quote_not_validated
             (Sample.quoting 2000 (JObject Sample.pricePayload)) "aapl"
             [Sample.apple] Sample.pricePayload eq_refl))
             Sample.apple Sample.n155 Sample.n2);
      try reflexivity.
    split; reflexivity.
Defined.
(** ** Validation of POST /api/stocks *)

Lemma truthy_false_negb v : truthy v = false <-> negb (truthy v) = true.
Proof. now destruct (truthy v). Qed.

Lemma isUndefined_true v : isUndefined v = true <-> v = JUndefined.
Proof. destruct v; simpl; split; congruence. Qed.

(** The test of line 41. *)
Lemma post_guard body :
  negb (truthy (prop body "symbol")) || negb (truthy (prop body "name"))
  || isUndefined (prop body "price") || isUndefined (prop body "change") = true
  <->
  (truthy (prop body "symbol") = false \/ truthy (prop body "name") = false \/
   prop body "price" = JUndefined \/ prop body "change" = JUndefined).
Proof.
  rewrite !orb_true_iff, <- !truthy_false_negb, !isUndefined_true. tauto.
Qed.

Lemma postStocks_rejected env body db :
  truthy (prop body "symbol") = false \/ truthy (prop body "name") = false \/
  prop body "price" = JUndefined \/ prop body "change" = JUndefined ->
  postStocks env body db
    = (mkResponse 400 (PError "Missing required fields"), db).
Proof.
  intros H. apply post_guard in H. run_route. now rewrite H.
Qed.

Lemma postStocks_accepted env body db :
  truthy (prop body "symbol") = true -> truthy (prop body "name") = true ->
  prop body "price" <> JUndefined -> prop body "change" <> JUndefined ->
  status (postStocks env body db).1 <> 400%nat.
Proof.
  intros Hs Hn Hp Hc.
  apply isUndefined_false in Hp, Hc.
  destruct (postStocks_cases env body db)
    as [H | [H | [(s & r & r' & _ & _ & H & _) | (s & r' & _ & _ & H & _)]]];
    try (rewrite H; simpl; discriminate).
  exfalso. revert H. run_route. rewrite Hs, Hn, Hp, Hc. simpl.
  destruct (storeFails env OpFindOne); [discriminate|].
  destruct (castString (prop body "symbol")); [|discriminate].
  destruct (findDoc s db); simpl;
    (destruct (storeFails env OpSave); [discriminate|]);
    (destruct (castDoc _); [|discriminate]); simpl.
  - discriminate.
  - destruct (findDoc _ db); discriminate.
Qed.

(** C4, as stated, fails: the body
    [{symbol: "", name: "Apple", price: 150, change: 1.2}] has all four keys,
    yet the answer is 400, because line 41 tests [symbol] and [name] with
    [!]. *)
Lemma post_400_with_all_keys_present :
  ~ rejectsExactlyMissing (Sample.quiet 2000) Sample.emptySymbolPayload [].
Proof.
  intros [H _]. specialize (H eq_refl).
  destruct H as [H | [H | [H | H]]]; vm_compute in H; discriminate H.
Qed.

(** C4 (amended): POST /api/stocks answers 400 if and only if [symbol] or
    [name] is missing or falsy (the empty string, for one), or [price] or
    [change] is undefined; [price] and [change] count as present whenever
    they are defined, 0 included. *)
Theorem post_400_iff_guard env body db :
  status (postStocks env body db).1 = 400%nat <->
  (truthy (prop body "symbol") = false \/ truthy (prop body "name") = false \/
   prop body "price" = JUndefined \/ prop body "change" = JUndefined).
Proof.
  split.
  - intros H.
    destruct (truthy (prop body "symbol")) eqn:Hs; [|now left].
    destruct (truthy (prop body "name")) eqn:Hn; [|now right; left].
    destruct (isUndefined (prop body "price")) eqn:Hp;
      [apply isUndefined_true in Hp; now right; right; left|].
    destruct (isUndefined (prop body "change")) eqn:Hc;
      [apply isUndefined_true in Hc; now right; right; right|].
    apply isUndefined_false in Hp, Hc.
    now destruct (postStocks_accepted env body db Hs Hn Hp Hc).
  - intros H. now rewrite (postStocks_rejected env body db H).
Qed.

(** C10: POST /api/stocks answers 400 whenever [symbol] or [name] is falsy,
    the empty string included, whatever the other fields are; [price] and
    [change] are only compared with [undefined], so a body whose symbol and
    name are truthy and whose price and change are defined, be they 0, is
    not answered with 400. *)
Theorem post_falsy_symbol_or_name_400 env body db :
  (truthy (prop body "symbol") = false \/ truthy (prop body "name") = false ->
   postStocks env body db
     = (mkResponse 400 (PError "Missing required fields"), db)) /\
  (prop body "symbol" = JString "" \/ prop body "name" = JString "" ->
   postStocks env body db
     = (mkResponse 400 (PError "Missing required fields"), db)) /\
  (truthy (prop body "symbol") = true -> truthy (prop body "name") = true ->
   forall p c, prop body "price" = JNumber p -> prop body "change" = JNumber c ->
   status (postStocks env body db).1 <> 400%nat).
Proof.
  repeat split.
  - intros [H|H]; apply postStocks_rejected; [now left | now right; left].
  - intros [H|H]; apply postStocks_rejected;
      [left | right; left]; now rewrite H.
  - intros Hs Hn p c Hp Hc. apply postStocks_accepted; try assumption;
      congruence.
Qed.

Lemma post_falsy_symbol_or_name_400_witness :
  postStocks (Sample.quiet 2000) Sample.emptySymbolPayload []
    = (mkResponse 400 (PError "Missing required fields"), []) /\
  status (postStocks (Sample.quiet 2000) Sample.zeroPricePayload []).1
    <> 400%nat.
Proof.
  split.
  - apply (proj1 (proj2 (post_falsy_symbol_or_name_400 (Sample.quiet 2000)
                           Sample.emptySymbolPayload []))).
    left. reflexivity.
  - apply (proj2 (proj2 (post_falsy_symbol_or_name_400 (Sample.quiet 2000)
                           Sample.zeroPricePayload []))
             eq_refl eq_refl Sample.n0 Sample.n0 eq_refl eq_refl).
Defined.
(** ** PUT /api/stocks/:symbol on a symbol not on file *)

Lemma putStock_absent_store env param body db :
  findDoc (toUpperCase param) db = None ->
  (putStock env param body db).2 = db.
Proof.
  intros Hr. run_route.
  destruct (isUndefined (prop body "price") || isUndefined (prop body "change"));
    [reflexivity|].
  destruct (storeFails env OpFindOneAndUpdate); [reflexivity|].
  destruct (castNumber (prop body "price")); [|reflexivity].
  destruct (castNumber (prop body "change")); [|reflexivity].
  now rewrite Hr.
Qed.

(** C5: when no record is filed under the symbol, PUT /api/stocks/:symbol
    with a price and a change answers 404 and leaves the store as it was; no
    request body makes it create a record. *)
Theorem put_absent_404 env param body db (p c : number) :
  findDoc (toUpperCase param) db = None ->
  prop body "price" = JNumber p -> prop body "change" = JNumber c ->
  storeFails env OpFindOneAndUpdate = false ->
  putStock env param body db = (mkResponse 404 (PError "Stock not found"), db) /\
  findDoc (toUpperCase param) (putStock env param body db).2 = None /\
  forall env' body', (putStock env' param body' db).2 = db.
Proof.
  intros Hr Hp Hc Hup.
  rewrite (putStock_absent _ _ _ _ _ _ Hp Hc Hup Hr).
  repeat split; [exact Hr|].
  intros env' body'. now apply putStock_absent_store.
Qed.

Lemma put_absent_404_witness :
  putStock (Sample.quiet 2000) "msft" Sample.pricePayload [Sample.apple]
    = (mkResponse 404 (PError "Stock not found"), [Sample.apple]) /\
  findDoc (toUpperCase "msft")
    (putStock (Sample.quiet 2000) "msft" Sample.pricePayload [Sample.apple]).2
    = None /\
  forall env' body', (putStock env' "msft" body' [Sample.apple]).2 = [Sample.apple].
Proof.
  apply (put_absent_404 (Sample.quiet 2000) "msft" Sample.pricePayload
           [Sample.apple] Sample.n155 Sample.n2); reflexivity.
Defined.

(** ** Posting the same payload twice *)

Lemma map_fields_replaceDoc s r1 r2 db :
  fields r1 = fields r2 ->
  List.map fields (replaceDoc s r1 db) = List.map fields (replaceDoc s r2 db).
Proof.
  intros H. induction db as [|r0 db IH]; [reflexivity|].
  simpl. destruct (hasSymbol s r0); simpl; congruence.
Qed.

(** C6: posting a valid payload twice leaves the store that posting it once
    (at the time of the second call) leaves, and leaves every record as the
    first call left it but for the time stamp (the very same store when both
    calls read the same clock); the second call answers 200
    with the payload's price and change, adds no record and keeps the
    symbols distinct. *)
Theorem post_twice_same_store env1 env2 body db (s n : string) (p c : number) :
  validPayload body s n p c ->
  storeFails env1 OpFindOne = false -> storeFails env1 OpSave = false ->
  storeFails env2 OpFindOne = false -> storeFails env2 OpSave = false ->
  let first := postStocks env1 body db in
  let second := postStocks env2 body first.2 in
  second.2 = (postStocks env2 body db).2 /\
  List.map fields second.2 = List.map fields first.2 /\
  (now env2 = now env1 -> second.2 = first.2) /\
  length second.2 = length first.2 /\
  (uniqueSymbols db -> uniqueSymbols second.2) /\
  exists r, second.1 = mkResponse 200 (PStock r) /\
            findDoc s second.2 = Some r /\
            symbol r = s /\ price r = p /\ change r = c.
Proof.
  intros Hv Hf1 Hs1 Hf2 Hs2. cbv zeta.
  assert (Hu : uniqueSymbols db ->
               uniqueSymbols (postStocks env2 body (postStocks env1 body db).2).2).
  { intros Hu.
    apply (routes_keep_uniqueSymbols env2 s body).
    now apply (routes_keep_uniqueSymbols env1 s body). }
  revert Hu.
  destruct (findDoc s db) as [r|] eqn:Hr.
  - rewrite (postStocks_existing env1 _ _ _ _ _ _ _ Hv Hf1 Hs1 Hr).
    rewrite (postStocks_existing env2 _ db _ _ _ _ _ Hv Hf2 Hs2 Hr).
    cbn [fst snd].
    set (r1 := mkStock s (name r) p c (now env1)).
    assert (H1 : findDoc s (replaceDoc s r1 db) = Some r1)
      by now apply findDoc_replaceDoc with r.
    rewrite (postStocks_existing env2 _ _ _ _ _ _ _ Hv Hf2 Hs2 H1).
    cbn [fst snd name].
    rewrite replaceDoc_twice by reflexivity.
    intros Hu.
    split; [reflexivity|].
    split; [now apply map_fields_replaceDoc|].
    split; [now intros ->|].
    split; [now rewrite !length_replaceDoc|].
    split; [exact Hu|].
    eexists. split; [reflexivity|].
    split; [now apply findDoc_replaceDoc with r|]. now repeat split.
  - rewrite (postStocks_new env1 _ _ _ _ _ _ Hv Hf1 Hs1 Hr).
    rewrite (postStocks_new env2 _ db _ _ _ _ Hv Hf2 Hs2 Hr).
    cbn [fst snd].
    set (r1 := mkStock s n p c (now env1)).
    assert (H1 : findDoc s (db ++ [r1]) = Some r1)
      by now apply findDoc_appended.
    rewrite (postStocks_existing env2 _ _ _ _ _ _ _ Hv Hf2 Hs2 H1).
    cbn [fst snd name].
    rewrite replaceDoc_appended by (exact Hr || reflexivity).
    intros Hu.
    split; [reflexivity|].
    split; [now rewrite !List.map_app|].
    split; [now intros ->|].
    split; [now rewrite !length_app|].
    split; [exact Hu|].
    eexists. split; [reflexivity|].
    split; [now apply findDoc_appended|]. now repeat split.
Qed.

Lemma post_twice_same_store_witness :
  let first := postStocks (Sample.quiet 1000) Sample.applePayload [] in
  let second := postStocks (Sample.quiet 2000) Sample.applePayload first.2 in
  second.2 = (postStocks (Sample.quiet 2000) Sample.applePayload []).2 /\
  List.map fields second.2 = List.map fields first.2 /\
  (2000 = 1000 -> second.2 = first.2) /\
  length second.2 = length first.2 /\
  (uniqueSymbols [] -> uniqueSymbols second.2) /\
  exists r, second.1 = mkResponse 200 (PStock r) /\
            findDoc "AAPL" second.2 = Some r /\
            symbol r = "AAPL" /\ price r = Sample.n150 /\
            change r = Sample.n1_2.
Proof.
  apply (post_twice_same_store (Sample.quiet 1000) (Sample.quiet 2000)
           Sample.applePayload [] "AAPL" "Apple" Sample.n150 Sample.n1_2).
  - repeat split; try reflexivity; discriminate.
  - reflexivity.
  - reflexivity.
  - reflexivity.
  - reflexivity.
Defined.
(** ** Outcomes of GET /api/search/:symbol *)

Lemma storeQuote_store_down env s data db :
  storeFails env OpFindOne = true \/ storeFails env OpSave = true ->
  tryCatch (storeQuote env s data) (fun _ => searchError) db = (searchError, db).
Proof.
  intros H. unfold storeQuote. run_route.
  destruct (storeFails env OpFindOne) eqn:Hf; [reflexivity|].
  destruct H as [H|H]; [discriminate|]. simpl.
  destruct (findDoc s db); simpl; now rewrite H.
Qed.

(** C7: GET /api/search/:symbol answers 500 with the error
    "Stock not found or API error", and stores nothing, whenever the quote
    fetch throws or a store call rejects; when the quote arrives with a name,
    a price and a change and the store answers, it answers 200 with the
    record it updated or created; it never answers anything else. *)
Theorem search_500_or_200 env param db :
  ((exists e, axiosGet env (quoteUrl param) = Throw e) \/
   storeFails env OpFindOne = true \/ storeFails env OpSave = true ->
   searchStock env param db
     = (mkResponse 500 (PError "Stock not found or API error"), db)) /\
  (forall data n p c,
     axiosGet env (quoteUrl param) = Ok (JObject data) ->
     prop data "name" = JString n -> pricedQuote data p c ->
     storeFails env OpFindOne = false -> storeFails env OpSave = false ->
     exists r',
       (searchStock env param db).1 = mkResponse 200 (PStock r') /\
       findDoc (toUpperCase param) (searchStock env param db).2 = Some r' /\
       symbol r' = toUpperCase param /\ price r' = p /\ change r' = c /\
       lastUpdated r' = now env /\
       match findDoc (toUpperCase param) db with
       | Some r =>
           name r' = name r /\
           (searchStock env param db).2 = replaceDoc (toUpperCase param) r' db
       | None =>
           name r' = n /\ (searchStock env param db).2 = db ++ [r']
       end) /\
  (searchStock env param db
     = (mkResponse 500 (PError "Stock not found or API error"), db) \/
   exists r',
     (searchStock env param db).1 = mkResponse 200 (PStock r') /\
     findDoc (toUpperCase param) (searchStock env param db).2 = Some r').
Proof.
  split; [|split].
  - intros [[e He] | H]; rewrite searchStock_unfold.
    + now rewrite He.
    + destruct (axiosGet env (quoteUrl param)) as [[]|]; try reflexivity;
        now apply storeQuote_store_down.
  - intros data n p c Hget Hn Hq Hfind Hsave.
    destruct (findDoc (toUpperCase param) db) as [r|] eqn:Hr.
    + rewrite (searchStock_existing _ _ _ _ _ _ _ Hget Hq Hfind Hsave Hr).
      eexists. split; [reflexivity|]. simpl.
      split; [now apply findDoc_replaceDoc with r|]. now repeat split.
    + rewrite (searchStock_new _ _ _ _ _ _ _ Hget Hn Hq Hfind Hsave Hr).
      eexists. split; [reflexivity|]. simpl.
      split; [now apply findDoc_appended|]. now repeat split.
  - destruct (searchStock_cases env param db)
      as [H | [(r & r' & Hr & H & Hs & _) | (r' & Hr & H & Hs & _)]].
    + now left.
    + right. exists r'. rewrite H. simpl.
      split; [reflexivity|]. now apply findDoc_replaceDoc with r.
    + right. exists r'. rewrite H. simpl.
      split; [reflexivity|]. now apply findDoc_appended.
Qed.

Lemma search_500_or_200_witness :
  searchStock (Sample.quiet 2000) "aapl" [Sample.apple]
    = (mkResponse 500 (PError "Stock not found or API error"), [Sample.apple]) /\
  exists r',
    (searchStock (Sample.quoting 2000 (JObject Sample.appleQuote)) "aapl" []).1
      = mkResponse 200 (PStock r') /\
    findDoc "AAPL"
      (searchStock (Sample.quoting 2000 (JObject Sample.appleQuote)) "aapl" []).2
      = Some r'.
Proof.
  split.
  - apply (proj1 (search_500_or_200 (Sample.quiet 2000) "aapl" [Sample.apple])).
    left. exists AxiosError. reflexivity.
  - destruct (proj1 (proj2 (search_500_or_200
                 (Sample.quoting 2000 (JObject Sample.appleQuote)) "aapl" []))
               Sample.appleQuote "Apple" Sample.n155 Sample.n2
               eq_refl eq_refl (conj eq_refl eq_refl) eq_refl eq_refl)
      as (r' & H1 & H2 & _).
    exists r'. split; [exact H1 | exact H2].
Defined.

(** ** DELETE /api/stocks/:symbol *)

(** C8: when the store answers, DELETE /api/stocks/:symbol on a record on
    file answers 200 with the message "Stock <SYMBOL> deleted successfully"
    (the symbol in upper case) and takes that record out of the collection;
    on a symbol with no record it answers 404 and changes nothing. *)
Theorem delete_existing_200_absent_404 env param db :
  storeFails env OpFindOneAndDelete = false ->
  (forall r, findDoc (toUpperCase param) db = Some r ->
     deleteStock env param db =
       (mkResponse 200
          (PMessage ("Stock " +:+ toUpperCase param +:+ " deleted successfully")),
        removeDoc (toUpperCase param) db) /\
     (exists l1 l2,
        db = l1 ++ r :: l2 /\ findDoc (toUpperCase param) l1 = None /\
        (deleteStock env param db).2 = l1 ++ l2) /\
     (uniqueSymbols db ->
      findDoc (toUpperCase param) (deleteStock env param db).2 = None)) /\
  (findDoc (toUpperCase param) db = None ->
   deleteStock env param db = (mkResponse 404 (PError "Stock not found"), db)).
Proof.
  intros Hup. split.
  - intros r Hr.
    assert (E : deleteStock env param db =
      (mkResponse 200
         (PMessage ("Stock " +:+ toUpperCase param +:+ " deleted successfully")),
       removeDoc (toUpperCase param) db))
      by (run_route; now rewrite Hup, Hr).
    rewrite E. simpl. split; [reflexivity|].
    destruct (findDoc_split _ _ _ Hr) as (l1 & l2 & -> & Hl1).
    pose proof (findDoc_symbol _ _ _ Hr) as Hs.
    rewrite (removeDoc_split _ _ _ _ Hl1 Hs). split.
    + now exists l1, l2.
    + intros Hu. exact (proj2 (uniqueSymbols_removed _ _ _ _ Hs Hu)).
  - intros Hr. run_route. now rewrite Hup, Hr.
Qed.

Lemma delete_existing_200_absent_404_witness :
  deleteStock (Sample.quiet 2000) "AAPL" [Sample.apple]
    = (mkResponse 200 (PMessage "Stock AAPL deleted successfully"), []) /\
  deleteStock (Sample.quiet 2000) "AAPL" []
    = (mkResponse 404 (PError "Stock not found"), []).
Proof.
  split.
  - apply (proj1 (delete_existing_200_absent_404 (Sample.quiet 2000) "AAPL"
                    [Sample.apple] eq_refl) Sample.apple eq_refl).
  - apply (proj2 (delete_existing_200_absent_404 (Sample.quiet 2000) "AAPL"
                    [] eq_refl) eq_refl).
Defined.

(** ** The time stamp of a record *)

(** C9, as stated, fails: AAPL was last updated at clock reading 1000 and a
    PUT handled while [Date.now()] still reads 1000 succeeds and leaves
    [lastUpdated] at 1000, equal to its previous value. *)
Lemma put_same_millisecond_keeps_stamp :
  ~ stampStrictlyLater
      (putStock (Sample.quiet 1000) "AAPL" Sample.pricePayload [Sample.apple])
      "AAPL" Sample.apple.
Proof.
  intros H. destruct (H eq_refl) as (r' & Hr' & Hlt).
  vm_compute in Hr'. injection Hr' as <-. simpl in Hlt. lia.
Qed.

(** C9 (amended): every successful mutation of a record by POST upsert, PUT
    or search-fetch sets its [lastUpdated] to the clock reading of the
    request; the value therefore strictly increases exactly when that reading
    is later than the value stored before. *)
Theorem mutation_stamps_clock env db (s : string) (r : StockRecord) :
  findDoc s db = Some r ->
  (forall body, prop body "symbol" = JString s ->
     stampedNow env (postStocks env body db) s r) /\
  (forall param body, toUpperCase param = s ->
     stampedNow env (putStock env param body db) s r) /\
  (forall param, toUpperCase param = s ->
     stampedNow env (searchStock env param db) s r).
Proof.
  intros Hr. unfold stampedNow. repeat split.
  - intros body Hs Hst.
    destruct (postStocks_cases env body db)
      as [H | [H | [(s0 & r0 & r' & Hs0 & Hr0 & H & Hs' & _ & Ht)
                   | (s0 & r' & _ & _ & H & _)]]];
      rewrite H in Hst |- *; try discriminate Hst.
    assert (s0 = s) as -> by congruence.
    exists r'. simpl. rewrite Ht.
    split; [now apply findDoc_replaceDoc with r|]. now split.
  - intros param body <- Hst.
    destruct (putStock_cases env param body db)
      as [H | [H | [[_ H] | (r0 & r' & Hr0 & H & Hs' & _ & Ht)]]];
      rewrite H in Hst |- *; try discriminate Hst.
    exists r'. simpl. rewrite Ht.
    split; [now apply findDoc_replaceDoc with r|]. now split.
  - intros param <- Hst.
    destruct (searchStock_cases env param db)
      as [H | [(r0 & r' & Hr0 & H & Hs' & _ & Ht) | (r' & Hr0 & H & _)]];
      rewrite H in Hst |- *; try discriminate Hst.
    + exists r'. simpl. rewrite Ht.
      split; [now apply findDoc_replaceDoc with r|]. now split.
    + congruence.
Qed.

Lemma mutation_stamps_clock_witness :
  (exists r',
     findDoc "AAPL"
       (postStocks (Sample.quiet 2000) Sample.renamedPayload [Sample.apple]).2
       = Some r' /\ lastUpdated r' = 2000 /\
     (lastUpdated Sample.apple < lastUpdated r'
      <-> lastUpdated Sample.apple < 2000)) /\
  (exists r',
     findDoc "AAPL"
       (putStock (Sample.quiet 2000) "aapl" Sample.pricePayload [Sample.apple]).2
       = Some r' /\ lastUpdated r' = 2000 /\
     (lastUpdated Sample.apple < lastUpdated r'
      <-> lastUpdated Sample.apple < 2000)) /\
  (exists r',
     findDoc "AAPL"
       (searchStock (Sample.quoting 2000 (JObject Sample.appleQuote)) "aapl"
          [Sample.apple]).2
       = Some r' /\ lastUpdated r' = 2000 /\
     (lastUpdated Sample.apple < lastUpdated r'
      <-> lastUpdated Sample.apple < 2000)).
Proof.
  split; [|split].
  - apply (proj1 (mutation_stamps_clock (Sample.quiet 2000) [Sample.apple]
                    "AAPL" Sample.apple eq_refl)
             Sample.renamedPayload eq_refl eq_refl).
  - apply (proj1 (proj2 (mutation_stamps_clock (Sample.quiet 2000)
                    [Sample.apple] "AAPL" Sample.apple eq_refl))
             "aapl" Sample.pricePayload eq_refl eq_refl).
  - apply (proj2 (proj2 (mutation_stamps_clock
                    (Sample.quoting 2000 (JObject Sample.appleQuote))
                    [Sample.apple] "AAPL" Sample.apple eq_refl))
             "aapl" eq_refl eq_refl).
Defined.

(** ** Records filed under other symbols *)

Lemma getStocks_cases env db :
  getStocks env db = (serverError, db) \/
  getStocks env db = (mkResponse 200 (PStocks db), db).
Proof.
  unfold getStocks. run_route.
  destruct (storeFails env OpFind); [now left | now right].
Qed.

Lemma others_replaceDoc s r' db :
  symbol r' = s -> others s (replaceDoc s r' db) = others s db.
Proof.
  intros H. apply hasSymbol_true in H.
  induction db as [|r0 db IH]; [reflexivity|].
  simpl. destruct (hasSymbol s r0) eqn:E; simpl.
  - now rewrite H.
  - rewrite E. simpl. now rewrite IH.
Qed.

Lemma others_removeDoc s db : others s (removeDoc s db) = others s db.
Proof.
  induction db as [|r0 db IH]; [reflexivity|].
  simpl. destruct (hasSymbol s r0) eqn:E; simpl.
  - reflexivity.
  - rewrite E. simpl. now rewrite IH.
Qed.

Lemma others_appended s r db :
  symbol r = s -> others s (db ++ [r]) = others s db.
Proof.
  intros H. apply hasSymbol_true in H. unfold others.
  rewrite List.filter_app. simpl. rewrite H. simpl. apply List.app_nil_r.
Qed.

Lemma findDoc_others s s' db :
  s' <> s -> findDoc s' (others s db) = findDoc s' db.
Proof.
  intros Hne. induction db as [|r0 db IH]; [reflexivity|].
  change (others s (r0 :: db))
    with (if negb (hasSymbol s r0) then r0 :: others s db else others s db).
  rewrite (findDoc_cons s' r0 db).
  destruct (hasSymbol s r0) eqn:E; cbn [negb].
  - apply hasSymbol_true in E.
    assert (hasSymbol s' r0 = false) as -> by (apply hasSymbol_false; congruence).
    exact IH.
  - rewrite findDoc_cons. now rewrite IH.
Qed.

Lemma In_others s r db : In r (others s db) <-> In r db /\ symbol r <> s.
Proof.
  unfold others. rewrite List.filter_In, negb_true_iff, hasSymbol_false.
  reflexivity.
Qed.

(** What a request leaves of the collection, seen from its target. *)
Lemma handle_others env req db :
  match target req with
  | Some s => others s (handle env req db).2 = others s db
  | None => (handle env req db).2 = db
  end.
Proof.
  destruct req as [|body|param body|param|param]; simpl.
  - now destruct (getStocks_cases env db) as [-> | ->].
  - destruct (postStocks_cases env body db)
      as [H | [H | [(s & r & r' & Hs & _ & H & Hs' & _)
                   | (s & r' & Hs & _ & H & Hs' & _)]]];
      rewrite H; simpl.
    + now destruct (castString _).
    + now destruct (castString _).
    + rewrite Hs. simpl. now apply others_replaceDoc.
    + rewrite Hs. simpl. now apply others_appended.
  - destruct (putStock_cases env param body db)
      as [H | [H | [[_ H] | (r & r' & _ & H & Hs & _)]]];
      rewrite H; simpl; try reflexivity.
    now apply others_replaceDoc.
  - destruct (deleteStock_cases env param db) as [H | [[_ H] | (r & _ & H)]];
      rewrite H; simpl; try reflexivity.
    apply others_removeDoc.
  - destruct (searchStock_cases env param db)
      as [H | [(r & r' & _ & H & Hs & _) | (r' & _ & H & Hs & _)]];
      rewrite H; simpl; try reflexivity.
    + now apply others_replaceDoc.
    + now apply others_appended.
Qed.

Lemma findDoc_handle_other env req db s' :
  target req <> Some s' ->
  findDoc s' (handle env req db).2 = findDoc s' db.
Proof.
  intros Hne. pose proof (handle_others env req db) as H.
  destruct (target req) as [s|]; [|now rewrite H].
  assert (Hs : s' <> s) by congruence.
  now rewrite <- (findDoc_others s s' _ Hs), H, findDoc_others.
Qed.



(** ** Status codes, failures and the size of the collection *)

Lemma length_removeDoc_found s db r :
  findDoc s db = Some r -> S (length (removeDoc s db)) = length db.
Proof.
  intros Hr. destruct (findDoc_split _ _ _ Hr) as (l1 & l2 & -> & Hl1).
  rewrite (removeDoc_split _ _ _ _ Hl1 (findDoc_symbol _ _ _ Hr)).
  rewrite !length_app. simpl. lia.
Qed.

(** X2: every route answers with one of its own status codes; 201 comes
    from POST /api/stocks only; and an answer that is neither 200 nor 201
    carries one of the five fixed [error] strings and leaves the collection
    exactly as it was. *)
Theorem answers_and_failures env req db :
  In (status (handle env req db).1) (statuses req) /\
  (status (handle env req db).1 = 201%nat -> exists body, req = POST_stocks body) /\
  (status (handle env req db).1 <> 200%nat ->
   status (handle env req db).1 <> 201%nat ->
   (handle env req db).2 = db /\
   exists msg, payload (handle env req db).1 = PError msg /\
     In msg ["Server error"; "Missing required fields";
             "Missing price or change fields"; "Stock not found";
             "Stock not found or API error"]).
Proof.
  destruct req as [|body|param body|param|param]; simpl.
  - destruct (getStocks_cases env db) as [-> | ->]; simpl;
      (split; [tauto|]); (split; [discriminate|]); intros; try congruence;
      (split; [reflexivity | eexists; split; [reflexivity | simpl; tauto]]).
  - destruct (postStocks_cases env body db)
      as [H | [H | [(s & r & r' & _ & _ & H & _) | (s & r' & _ & _ & H & _)]]];
      rewrite H; simpl;
      (split; [tauto|]); (split; [eauto|]); intros; try congruence;
      (split; [reflexivity | eexists; split; [reflexivity | simpl; tauto]]).
  - destruct (putStock_cases env param body db)
      as [H | [H | [[_ H] | (r & r' & _ & H & _)]]];
      rewrite H; simpl;
      (split; [tauto|]); (split; [discriminate|]); intros; try congruence;
      (split; [reflexivity | eexists; split; [reflexivity | simpl; tauto]]).
  - destruct (deleteStock_cases env param db) as [H | [[_ H] | (r & _ & H)]];
      rewrite H; simpl;
      (split; [tauto|]); (split; [discriminate|]); intros; try congruence;
      (split; [reflexivity | eexists; split; [reflexivity | simpl; tauto]]).
  - destruct (searchStock_cases env param db)
      as [H | [(r & r' & _ & H & _) | (r' & _ & H & _)]];
      rewrite H; simpl;
      (split; [tauto|]); (split; [discriminate|]); intros; try congruence;
      (split; [reflexivity | eexists; split; [reflexivity | simpl; tauto]]).
Qed.

(** X3: the status tells what happened to the size of the collection. POST
    answers 201 exactly when it added a record (at the end, nothing else
    moved) and otherwise keeps the size; DELETE answers 200 exactly when it
    took one record out and otherwise changes nothing; the search route adds
    at most one record; GET and PUT never change the size. *)
Theorem status_tracks_size env req db :
  match req with
  | POST_stocks _ =>
      (status (handle env req db).1 = 201%nat <->
       exists r, (handle env req db).2 = db ++ [r]) /\
      (status (handle env req db).1 <> 201%nat ->
       length (handle env req db).2 = length db)
  | DELETE_stock _ =>
      (status (handle env req db).1 = 200%nat <->
       S (length (handle env req db).2) = length db) /\
      (status (handle env req db).1 <> 200%nat -> (handle env req db).2 = db)
  | GET_search _ =>
      (exists r, (handle env req db).2 = db ++ [r]) \/
      length (handle env req db).2 = length db
  | GET_stocks | PUT_stock _ _ =>
      length (handle env req db).2 = length db
  end.
Proof.
  assert (Happ : forall (r : StockRecord) l, l ++ [r] <> l).
  { intros r l H. apply (f_equal (@length _)) in H.
    rewrite length_app in H. simpl in H. lia. }
  assert (Happ' : forall (r r' : StockRecord) s l, replaceDoc s r' l <> l ++ [r]).
  { intros r r' s l H. apply (f_equal (@length _)) in H.
    rewrite length_replaceDoc, length_app in H. simpl in H. lia. }
  destruct req as [|body|param body|param|param]; simpl.
  - now destruct (getStocks_cases env db) as [-> | ->].
  - destruct (postStocks_cases env body db)
      as [H | [H | [(s & r & r' & _ & _ & H & _) | (s & r' & _ & _ & H & _)]]];
      rewrite H; simpl.
    + split; [|reflexivity]. split; [discriminate|].
      intros [r Hr]. symmetry in Hr. now apply Happ in Hr.
    + split; [|reflexivity]. split; [discriminate|].
      intros [r Hr]. symmetry in Hr. now apply Happ in Hr.
    + split; [|intros _; apply length_replaceDoc]. split; [discriminate|].
      intros [r0 Hr]. now apply Happ' in Hr.
    + split; [|congruence]. split; [eauto | reflexivity].
  - destruct (putStock_cases env param body db)
      as [H | [H | [[_ H] | (r & r' & _ & H & _)]]];
      rewrite H; simpl; try reflexivity.
    apply length_replaceDoc.
  - destruct (deleteStock_cases env param db) as [H | [[_ H] | (r & Hr & H)]];
      rewrite H; simpl.
    + split; [|reflexivity]. split; [discriminate | lia].
    + split; [|reflexivity]. split; [discriminate | lia].
    + split; [|congruence]. split; [|reflexivity].
      intros _. now apply length_removeDoc_found with r.
  - destruct (searchStock_cases env param db)
      as [H | [(r & r' & _ & H & _) | (r' & _ & H & _)]];
      rewrite H; simpl.
    + now right.
    + right. apply length_replaceDoc.
    + left. eauto.
Qed.

(** ** PUT /api/stocks/:symbol *)

Lemma map_replaceDoc_same {A : Type} (f : StockRecord -> A) s r r' db :
  findDoc s db = Some r -> f r' = f r ->
  List.map f (replaceDoc s r' db) = List.map f db.
Proof.
  intros Hr Hf. induction db as [|r0 db IH]; [reflexivity|].
  rewrite findDoc_cons in Hr. simpl.
  destruct (hasSymbol s r0); simpl.
  - injection Hr as ->. now rewrite Hf.
  - now rewrite IH.
Qed.

(** X4: PUT /api/stocks/:symbol answers 400 with "Missing price or change
    fields", and changes nothing, if and only if [price] or [change] is
    undefined in the body; any defined value, 0 or [null] included, passes
    this test. *)
Theorem put_400_iff_guard env param body db :
  (status (putStock env param body db).1 = 400%nat <->
   prop body "price" = JUndefined \/ prop body "change" = JUndefined) /\
  (status (putStock env param body db).1 = 400%nat ->
   putStock env param body db
     = (mkResponse 400 (PError "Missing price or change fields"), db)).
Proof.
  assert (G : isUndefined (prop body "price") || isUndefined (prop body "change")
              = true <->
              prop body "price" = JUndefined \/ prop body "change" = JUndefined)
    by now rewrite orb_true_iff, !isUndefined_true.
  destruct (isUndefined (prop body "price") || isUndefined (prop body "change"))
    eqn:E.
  - assert (H : putStock env param body db
                = (mkResponse 400 (PError "Missing price or change fields"), db))
      by (run_route; now rewrite E).
    rewrite H. simpl. split; [|reflexivity].
    split; [intros _; now apply G | reflexivity].
  - assert (H : status (putStock env param body db).1 <> 400%nat).
    { run_route. rewrite E.
      destruct (storeFails env OpFindOneAndUpdate); [discriminate|].
      destruct (castNumber (prop body "price")); [|discriminate].
      destruct (castNumber (prop body "change")); [|discriminate].
      destruct (findDoc (toUpperCase param) db); discriminate. }
    split; [|intros H'; now destruct H].
    split; [intros H'; now destruct H|].
    intros H'. apply G in H'. discriminate H'.
Qed.

(** X5: PUT /api/stocks/:symbol never adds, removes, reorders or renames a
    record, whatever the request: the symbols and the names of the
    collection stay as they were. On a record on file, with a numeric price
    and change and a store that answers, it answers 200 with that record
    carrying the new price and change and the clock reading. *)
Theorem put_updates_in_place env param body db :
  List.map symbol (putStock env param body db).2 = List.map symbol db /\
  List.map name (putStock env param body db).2 = List.map name db /\
  (forall r p c,
     findDoc (toUpperCase param) db = Some r ->
     prop body "price" = JNumber p -> prop body "change" = JNumber c ->
     storeFails env OpFindOneAndUpdate = false ->
     (putStock env param body db).1
       = mkResponse 200
           (PStock (mkStock (toUpperCase param) (name r) p c (now env))) /\
     findDoc (toUpperCase param) (putStock env param body db).2
       = Some (mkStock (toUpperCase param) (name r) p c (now env))).
Proof.
  split; [|split].
  - destruct (putStock_cases env param body db)
      as [H | [H | [[_ H] | (r & r' & Hr & H & Hs & Hn & _)]]];
      rewrite H; simpl; try reflexivity.
    apply map_replaceDoc_same with r; [exact Hr|].
    now rewrite Hs, (findDoc_symbol _ _ _ Hr).
  - destruct (putStock_cases env param body db)
      as [H | [H | [[_ H] | (r & r' & Hr & H & Hs & Hn & _)]]];
      rewrite H; simpl; try reflexivity.
    now apply map_replaceDoc_same with r.
  - intros r p c Hr Hp Hc Hup.
    rewrite (putStock_existing _ _ _ _ _ _ _ Hp Hc Hup Hr). simpl.
    rewrite (findDoc_symbol _ _ _ Hr). split; [reflexivity|].
    now apply findDoc_replaceDoc with r.
Qed.

Lemma put_updates_in_place_witness :
  (putStock (Sample.quiet 2000) "aapl" Sample.pricePayload [Sample.apple]).1
    = mkResponse 200 (PStock (mkStock "AAPL" "Apple" Sample.n155 Sample.n2 2000)) /\
  findDoc "AAPL"
    (putStock (Sample.quiet 2000) "aapl" Sample.pricePayload [Sample.apple]).2
    = Some (mkStock "AAPL" "Apple" Sample.n155 Sample.n2 2000).
Proof.
  apply (proj2 (proj2 (put_updates_in_place (Sample.quiet 2000) "aapl"
                         Sample.pricePayload [Sample.apple]))
           Sample.apple Sample.n155 Sample.n2 eq_refl eq_refl eq_refl eq_refl).
Defined.

(** ** What no request does to a record *)

Lemma uniqueSymbols_removeDoc_gone s db r :
  uniqueSymbols db -> findDoc s db = Some r ->
  findDoc s (removeDoc s db) = None.
Proof.
  intros Hu Hr. destruct (findDoc_split _ _ _ Hr) as (l1 & l2 & -> & Hl1).
  pose proof (findDoc_symbol _ _ _ Hr) as Hs.
  rewrite (removeDoc_split _ _ _ _ Hl1 Hs).
  exact (proj2 (uniqueSymbols_removed _ _ _ _ Hs Hu)).
Qed.

(** X6: no route renames a record. In a collection with distinct symbols, if
    a symbol has a record before a request and has one after it, the two
    carry the same name, whatever the route and the request were. *)
Theorem name_never_changes env req db (s : string) (r r' : StockRecord) :
  uniqueSymbols db ->
  findDoc s db = Some r ->
  findDoc s (handle env req db).2 = Some r' ->
  name r' = name r.
Proof.
  intros Hu Hr Hr'.
  destruct (decide (target req = Some s)) as [Ht|Ht];
    [|rewrite (findDoc_handle_other _ _ _ _ Ht) in Hr'; congruence].
  destruct req as [|body|param body|param|param]; simpl in Ht, Hr'.
  - discriminate Ht.
  - apply castString_Some in Ht.
    destruct (postStocks_cases env body db)
      as [H | [H | [(s0 & r0 & r'' & Hs0 & Hr0 & H & Hs' & Hn & _)
                   | (s0 & r'' & Hs0 & Hr0 & H & _)]]];
      rewrite H in Hr'; simpl in Hr'; try congruence.
    assert (s0 = s) as -> by congruence.
    rewrite (findDoc_replaceDoc _ _ _ _ Hr0 Hs') in Hr'. congruence.
  - injection Ht as <-.
    destruct (putStock_cases env param body db)
      as [H | [H | [[_ H] | (r0 & r'' & Hr0 & H & Hs' & Hn & _)]]];
      rewrite H in Hr'; simpl in Hr'; try congruence.
    rewrite (findDoc_replaceDoc _ _ _ _ Hr0 Hs') in Hr'. congruence.
  - injection Ht as <-.
    destruct (deleteStock_cases env param db) as [H | [[_ H] | (r0 & Hr0 & H)]];
      rewrite H in Hr'; simpl in Hr'; try congruence.
    rewrite (uniqueSymbols_removeDoc_gone _ _ _ Hu Hr0) in Hr'. discriminate.
  - injection Ht as <-.
    destruct (searchStock_cases env param db)
      as [H | [(r0 & r'' & Hr0 & H & Hs' & Hn & _) | (r'' & Hr0 & H & _)]];
      rewrite H in Hr'; simpl in Hr'; try congruence.
    rewrite (findDoc_replaceDoc _ _ _ _ Hr0 Hs') in Hr'. congruence.
Qed.

Lemma name_never_changes_witness :
  name (mkStock "AAPL" "Apple" Sample.n155 Sample.n2 2000) = name Sample.apple.
Proof.
  apply (name_never_changes (Sample.quiet 2000)
           (POST_stocks Sample.renamedPayload) [Sample.apple] "AAPL"
           Sample.apple (mkStock "AAPL" "Apple" Sample.n155 Sample.n2 2000)).
  - repeat constructor. simpl. tauto.
  - reflexivity.
  - reflexivity.
Defined.

(** X7: the symbols of the collection stay distinct under every sequence of
    requests, each handled in any environment; starting from the empty
    collection, no sequence of requests files two records under one
    symbol. *)
Theorem serve_keeps_symbols_unique (reqs : list (Env * Request)) :
  uniqueSymbols (serve reqs []) /\
  forall db, uniqueSymbols db -> uniqueSymbols (serve reqs db).
Proof.
  assert (H : forall db, uniqueSymbols db -> uniqueSymbols (serve reqs db)).
  { induction reqs as [|[env req] reqs IH]; intros db Hu; [exact Hu|].
    simpl. apply IH.
    destruct req as [|body|param body|param|param]; simpl;
      first [ apply (routes_keep_uniqueSymbols env "" ∅ db Hu)
            | apply (routes_keep_uniqueSymbols env "" body db Hu)
            | apply (routes_keep_uniqueSymbols env param body db Hu)
            | apply (routes_keep_uniqueSymbols env param ∅ db Hu) ]. }
  split; [|exact H]. apply H. constructor.
Qed.

(** ** After a DELETE *)

(** X8: once DELETE /api/stocks/:symbol has removed the record of a symbol
    from a collection with distinct symbols, no record is filed under that
    symbol, and PUT and DELETE on any casing of it answer 404 and change
    nothing. *)
Theorem deleted_symbol_is_gone env param db (r : StockRecord) :
  uniqueSymbols db ->
  storeFails env OpFindOneAndDelete = false ->
  findDoc (toUpperCase param) db = Some r ->
  let db' := (deleteStock env param db).2 in
  (forall r0, In r0 db' -> symbol r0 <> toUpperCase param) /\
  (forall env' param' body p c,
     sameSymbol param' param ->
     prop body "price" = JNumber p -> prop body "change" = JNumber c ->
     storeFails env' OpFindOneAndUpdate = false ->
     putStock env' param' body db'
       = (mkResponse 404 (PError "Stock not found"), db')) /\
  (forall env' param',
     sameSymbol param' param ->
     storeFails env' OpFindOneAndDelete = false ->
     deleteStock env' param' db'
       = (mkResponse 404 (PError "Stock not found"), db')).
Proof.
  intros Hu Hup Hr. cbv zeta.
  assert (E : (deleteStock env param db).2 = removeDoc (toUpperCase param) db)
    by (run_route; now rewrite Hup, Hr).
  rewrite E.
  pose proof (uniqueSymbols_removeDoc_gone _ _ _ Hu Hr) as Hgone.
  split; [|split].
  - now apply findDoc_None.
  - intros env' param' body p c Hsame Hp Hc Hup'.
    apply putStock_absent with p c; try assumption.
    now rewrite (sameSymbol_toUpperCase _ _ Hsame).
  - intros env' param' Hsame Hup'.
    apply sameSymbol_toUpperCase in Hsame.
    run_route. now rewrite Hup', Hsame, Hgone.
Qed.

Lemma deleted_symbol_is_gone_witness :
  putStock (Sample.quiet 3000) "aapl" Sample.pricePayload
    (deleteStock (Sample.quiet 2000) "AAPL" [Sample.apple]).2
  = (mkResponse 404 (PError "Stock not found"),
     (deleteStock (Sample.quiet 2000) "AAPL" [Sample.apple]).2).
Proof.
  apply (proj1 (proj2 (deleted_symbol_is_gone (Sample.quiet 2000) "AAPL"
                         [Sample.apple] Sample.apple
                         ltac:(repeat constructor; simpl; tauto)
                         eq_refl eq_refl))
           (Sample.quiet 3000) "aapl" Sample.pricePayload Sample.n155 Sample.n2
           eq_refl eq_refl eq_refl eq_refl).
Defined.

(** ** Two PUTs in a row *)

(** X9: the last PUT wins. A PUT that follows another PUT on a casing of the
    same symbol answers and leaves the collection exactly as if the first
    had never been made. *)
Theorem put_last_write_wins env1 env2 (param1 param2 : string)
  (body1 body2 : gmap string JSValue) db (p1 c1 p2 c2 : number) :
  sameSymbol param1 param2 ->
  prop body1 "price" = JNumber p1 -> prop body1 "change" = JNumber c1 ->
  prop body2 "price" = JNumber p2 -> prop body2 "change" = JNumber c2 ->
  storeFails env1 OpFindOneAndUpdate = false ->
  storeFails env2 OpFindOneAndUpdate = false ->
  putStock env2 param2 body2 (putStock env1 param1 body1 db).2
    = putStock env2 param2 body2 db.
Proof.
  intros Hsame Hp1 Hc1 Hp2 Hc2 Hup1 Hup2.
  apply sameSymbol_toUpperCase in Hsame.
  destruct (findDoc (toUpperCase param1) db) as [r|] eqn:Hr.
  - rewrite (putStock_existing env1 _ _ _ _ _ _ Hp1 Hc1 Hup1 Hr).
    cbn [snd]. rewrite Hsame in Hr |- *.
    set (r1 := mkStock (symbol r) (name r) p1 c1 (now env1)).
    assert (H1 : findDoc (toUpperCase param2)
                   (replaceDoc (toUpperCase param2) r1 db) = Some r1)
      by (apply findDoc_replaceDoc with r;
          [exact Hr | exact (findDoc_symbol _ _ _ Hr)]).
    rewrite (putStock_existing env2 _ _ _ _ _ _ Hp2 Hc2 Hup2 H1).
    rewrite (putStock_existing env2 _ _ _ _ _ _ Hp2 Hc2 Hup2 Hr).
    cbn [symbol name r1].
    now rewrite replaceDoc_twice by exact (findDoc_symbol _ _ _ Hr).
  - now rewrite (putStock_absent env1 _ _ _ _ _ Hp1 Hc1 Hup1 Hr).
Qed.

Lemma put_last_write_wins_witness :
  putStock (Sample.quiet 3000) "AAPL" Sample.pricePayload
    (putStock (Sample.quiet 2000) "aapl" Sample.zeroPricePayload
       [Sample.apple]).2
  = putStock (Sample.quiet 3000) "AAPL" Sample.pricePayload [Sample.apple].
Proof.
  apply (put_last_write_wins (Sample.quiet 2000) (Sample.quiet 3000)
           "aapl" "AAPL" Sample.zeroPricePayload Sample.pricePayload
           [Sample.apple] Sample.n0 Sample.n0 Sample.n155 Sample.n2);
    reflexivity.
Defined.

(** ** Casing of stored symbols *)

Lemma In_handle_other env req db r :
  In r db -> target req <> Some (symbol r) -> In r (handle env req db).2.
Proof.
  intros Hin Hne. pose proof (handle_others env req db) as H.
  destruct (target req) as [s|]; [|now rewrite H].
  assert (Hin' : In r (others s (handle env req db).2)).
  { rewrite H. apply In_others. split; [exact Hin | congruence]. }
  now apply In_others in Hin'.
Qed.

(** X10: PUT, DELETE and the search route only ever look up upper-case
    symbols, so a record whose symbol is not in upper case is out of their
    reach: whatever the path parameter, the record is still in the
    collection afterwards, unchanged. *)
Theorem mixed_case_record_out_of_reach env req db (r : StockRecord) :
  (forall body, req <> POST_stocks body) ->
  In r db -> ~ isUpperCase (symbol r) ->
  In r (handle env req db).2.
Proof.
  intros Hreq Hin Hcase. apply In_handle_other; [exact Hin|].
  destruct req as [|body|param body|param|param]; simpl;
    try discriminate; try (now destruct (Hreq body));
    intros [= H]; apply Hcase; unfold isUpperCase;
    rewrite <- H; apply toUpperCase_idemp.
Qed.

Lemma mixed_case_record_out_of_reach_witness :
  In (mkStock "aapl" "Apple" Sample.n150 Sample.n1_2 1000)
    (handle (Sample.quiet 2000) (DELETE_stock "aapl")
       [mkStock "aapl" "Apple" Sample.n150 Sample.n1_2 1000]).2.
Proof.
  apply (mixed_case_record_out_of_reach (Sample.quiet 2000)
           (DELETE_stock "aapl")
           [mkStock "aapl" "Apple" Sample.n150 Sample.n1_2 1000]
           (mkStock "aapl" "Apple" Sample.n150 Sample.n1_2 1000)).
  - discriminate.
  - left. reflexivity.
  - discriminate.
Defined.

(** X11: POST /api/stocks files a new record under the symbol exactly as
    posted, while PUT and DELETE look up the upper-cased path parameter.
    After a record was created by POST under a symbol that is not in upper
    case, PUT and DELETE on that very symbol answer 404 and leave the record
    where it is. *)
Theorem post_keeps_case_put_delete_miss env env' body body' db
  (s n : string) (p c p' c' : number) :
  validPayload body s n p c ->
  ~ isUpperCase s ->
  findDoc s db = None -> findDoc (toUpperCase s) db = None ->
  storeFails env OpFindOne = false -> storeFails env OpSave = false ->
  prop body' "price" = JNumber p' -> prop body' "change" = JNumber c' ->
  storeFails env' OpFindOneAndUpdate = false ->
  storeFails env' OpFindOneAndDelete = false ->
  let db' := (postStocks env body db).2 in
  (postStocks env body db).1
    = mkResponse 201 (PStock (mkStock s n p c (now env))) /\
  findDoc s db' = Some (mkStock s n p c (now env)) /\
  putStock env' s body' db' = (mkResponse 404 (PError "Stock not found"), db') /\
  deleteStock env' s db' = (mkResponse 404 (PError "Stock not found"), db').
Proof.
  intros Hv Hcase Hr Hup Hf Hs Hp' Hc' Hfu Hfd. cbv zeta.
  rewrite (postStocks_new _ _ _ _ _ _ _ Hv Hf Hs Hr). cbn [fst snd].
  assert (Hmiss : findDoc (toUpperCase s) (db ++ [mkStock s n p c (now env)])
                  = None).
  { rewrite findDoc_app_absent by exact Hup.
    destruct (hasSymbol _ _) eqn:E; [|reflexivity].
    apply hasSymbol_true in E. simpl in E. now destruct Hcase. }
  split; [reflexivity|]. split; [now apply findDoc_appended|]. split.
  - now apply putStock_absent with p' c'.
  - run_route. now rewrite Hfd, Hmiss.
Qed.

Lemma post_keeps_case_put_delete_miss_witness :
  let body := Sample.mkBody (JString "aapl") (JString "Apple")
                (JNumber Sample.n150) (JNumber Sample.n1_2) in
  let db' := (postStocks (Sample.quiet 1000) body []).2 in
  (postStocks (Sample.quiet 1000) body []).1
    = mkResponse 201 (PStock (mkStock "aapl" "Apple" Sample.n150 Sample.n1_2 1000)) /\
  findDoc "aapl" db'
    = Some (mkStock "aapl" "Apple" Sample.n150 Sample.n1_2 1000) /\
  putStock (Sample.quiet 2000) "aapl" Sample.pricePayload db'
    = (mkResponse 404 (PError "Stock not found"), db') /\
  deleteStock (Sample.quiet 2000) "aapl" db'
    = (mkResponse 404 (PError "Stock not found"), db').
Proof.
  apply (post_keeps_case_put_delete_miss (Sample.quiet 1000)
           (Sample.quiet 2000)
           (Sample.mkBody (JString "aapl") (JString "Apple")
              (JNumber Sample.n150) (JNumber Sample.n1_2))
           Sample.pricePayload [] "aapl" "Apple"
           Sample.n150 Sample.n1_2 Sample.n155 Sample.n2);
    try reflexivity.
  - repeat split; try reflexivity; discriminate.
  - discriminate.
Defined.

(** ** The search route and the other routes *)

(** X12: a record the search route has stored is filed under the upper-cased
    symbol, so a PUT that follows on any casing of the symbol finds it:
    the PUT answers 200 with the new price and change, under the name the
    quote gave when the search created the record. *)
Theorem search_then_put env env' (param param' : string) db
  (data body : gmap string JSValue) (n : string) (p c p' c' : number) :
  axiosGet env (quoteUrl param) = Ok (JObject data) ->
  prop data "name" = JString n -> pricedQuote data p c ->
  storeFails env OpFindOne = false -> storeFails env OpSave = false ->
  sameSymbol param' param ->
  prop body "price" = JNumber p' -> prop body "change" = JNumber c' ->
  storeFails env' OpFindOneAndUpdate = false ->
  exists r,
    (putStock env' param' body (searchStock env param db).2).1
      = mkResponse 200 (PStock r) /\
    symbol r = toUpperCase param /\ isUpperCase (symbol r) /\
    price r = p' /\ change r = c' /\ lastUpdated r = now env' /\
    (findDoc (toUpperCase param) db = None -> name r = n).
Proof.
  intros Hget Hn Hq Hf Hs Hsame Hp' Hc' Hup.
  apply sameSymbol_toUpperCase in Hsame.
  destruct (findDoc (toUpperCase param) db) as [r0|] eqn:Hr.
  - rewrite (searchStock_existing _ _ _ _ _ _ _ Hget Hq Hf Hs Hr). cbn [snd].
    set (r1 := mkStock (toUpperCase param) (name r0) p c (now env)).
    assert (H1 : findDoc (toUpperCase param')
                   (replaceDoc (toUpperCase param) r1 db) = Some r1)
      by (rewrite Hsame; now apply findDoc_replaceDoc with r0).
    rewrite (putStock_existing _ _ _ _ _ _ _ Hp' Hc' Hup H1).
    eexists. split; [reflexivity|]. simpl.
    repeat split; [apply toUpperCase_idemp | discriminate].
  - rewrite (searchStock_new _ _ _ _ _ _ _ Hget Hn Hq Hf Hs Hr). cbn [snd].
    set (r1 := mkStock (toUpperCase param) n p c (now env)).
    assert (H1 : findDoc (toUpperCase param') (db ++ [r1]) = Some r1)
      by (rewrite Hsame; now apply findDoc_appended).
    rewrite (putStock_existing _ _ _ _ _ _ _ Hp' Hc' Hup H1).
    eexists. split; [reflexivity|]. simpl.
    repeat split. apply toUpperCase_idemp.
Qed.

Lemma search_then_put_witness :
  exists r,
    (putStock (Sample.quiet 3000) "Msft" Sample.pricePayload
       (searchStock (Sample.quoting 2000 (JObject Sample.appleQuote)) "msft"
          [Sample.apple]).2).1
      = mkResponse 200 (PStock r) /\
    symbol r = "MSFT" /\ isUpperCase (symbol r) /\
    price r = Sample.n155 /\ change r = Sample.n2 /\ lastUpdated r = 3000 /\
    (findDoc "MSFT" [Sample.apple] = None -> name r = "Apple").
Proof.
  apply (search_then_put (Sample.quoting 2000 (JObject Sample.appleQuote))
           (Sample.quiet 3000) "msft" "Msft" [Sample.apple]
           Sample.appleQuote Sample.pricePayload "Apple"
           Sample.n155 Sample.n2 Sample.n155 Sample.n2);
    try reflexivity.
  split; reflexivity.
Defined.

(** X13: a quote whose body is not an object is never stored. When
    [response.data] is [undefined] or [null] the destructuring of line 120
    throws; when it is a boolean, a number or a string the three fields read
    as [undefined] and the store refuses them; either way the search route
    answers its 500 and the collection is as it was. *)
Theorem search_needs_object env param db (v : JSValue) :
  axiosGet env (quoteUrl param) = Ok v ->
  (forall o, v <> JObject o) ->
  searchStock env param db
    = (mkResponse 500 (PError "Stock not found or API error"), db).
Proof.
  intros Hget Hv. rewrite searchStock_unfold, Hget.
  destruct v as [| |b|x|s|o]; try reflexivity;
    try (apply storeQuote_unpriced; now left).
  now destruct (Hv o).
Qed.

Lemma search_needs_object_witness :
  searchStock (Sample.quoting 2000 (JString "<html></html>")) "aapl"
    [Sample.apple]
  = (mkResponse 500 (PError "Stock not found or API error"), [Sample.apple]).
Proof.
  apply (search_needs_object (Sample.quoting 2000 (JString "<html></html>"))
           "aapl" [Sample.apple] (JString "<html></html>") eq_refl).
  discriminate.
Defined.

(** X14: searching a symbol twice leaves the collection that searching it
    once (at the time of the second call, with the second quote) leaves,
    when both quotes carry a name, a price and a change; the second search
    adds no record. *)
Theorem search_twice_same_store env1 env2 (param : string) db
  (data1 data2 : gmap string JSValue) (n1 n2 : string) (p1 c1 p2 c2 : number) :
  axiosGet env1 (quoteUrl param) = Ok (JObject data1) ->
  axiosGet env2 (quoteUrl param) = Ok (JObject data2) ->
  prop data1 "name" = JString n1 -> prop data2 "name" = JString n2 ->
  pricedQuote data1 p1 c1 -> pricedQuote data2 p2 c2 ->
  storeFails env1 OpFindOne = false -> storeFails env1 OpSave = false ->
  storeFails env2 OpFindOne = false -> storeFails env2 OpSave = false ->
  let first := searchStock env1 param db in
  let second := searchStock env2 param first.2 in
  (n1 = n2 -> second.2 = (searchStock env2 param db).2) /\
  List.map symbol second.2 = List.map symbol first.2 /\
  List.map name second.2 = List.map name first.2 /\
  exists r, second.1 = mkResponse 200 (PStock r) /\
            findDoc (toUpperCase param) second.2 = Some r /\
            price r = p2 /\ change r = c2 /\ lastUpdated r = now env2.
Proof.
  intros Hg1 Hg2 Hn1 Hn2 Hq1 Hq2 Hf1 Hs1 Hf2 Hs2. cbv zeta.
  destruct (findDoc (toUpperCase param) db) as [r|] eqn:Hr.
  - rewrite (searchStock_existing env1 _ _ _ _ _ _ Hg1 Hq1 Hf1 Hs1 Hr).
    rewrite (searchStock_existing env2 _ db _ _ _ _ Hg2 Hq2 Hf2 Hs2 Hr).
    cbn [fst snd].
    set (r1 := mkStock (toUpperCase param) (name r) p1 c1 (now env1)).
    assert (H1 : findDoc (toUpperCase param)
                   (replaceDoc (toUpperCase param) r1 db) = Some r1)
      by now apply findDoc_replaceDoc with r.
    rewrite (searchStock_existing env2 _ _ _ _ _ _ Hg2 Hq2 Hf2 Hs2 H1).
    cbn [fst snd name r1].
    split; [intros _; now apply replaceDoc_twice|].
    split; [now apply map_replaceDoc_same with r1|].
    split; [now apply map_replaceDoc_same with r1|].
    eexists. split; [reflexivity|].
    split; [now apply findDoc_replaceDoc with r1|]. now repeat split.
  - rewrite (searchStock_new env1 _ _ _ _ _ _ Hg1 Hn1 Hq1 Hf1 Hs1 Hr).
    rewrite (searchStock_new env2 _ db _ _ _ _ Hg2 Hn2 Hq2 Hf2 Hs2 Hr).
    cbn [fst snd].
    set (r1 := mkStock (toUpperCase param) n1 p1 c1 (now env1)).
    assert (H1 : findDoc (toUpperCase param) (db ++ [r1]) = Some r1)
      by now apply findDoc_appended.
    rewrite (searchStock_existing env2 _ _ _ _ _ _ Hg2 Hq2 Hf2 Hs2 H1).
    cbn [fst snd name r1].
    split; [intros ->; now apply replaceDoc_appended|].
    split; [now apply map_replaceDoc_same with r1|].
    split; [now apply map_replaceDoc_same with r1|].
    eexists. split; [reflexivity|].
    split; [now apply findDoc_replaceDoc with r1|]. now repeat split.
Qed.

Lemma search_twice_same_store_witness :
  let env := Sample.quoting 2000 (JObject Sample.appleQuote) in
  let first := searchStock env "aapl" [] in
  let second := searchStock env "AAPL" first.2 in
  ("Apple" = "Apple" -> second.2 = (searchStock env "AAPL" []).2) /\
  List.map symbol second.2 = List.map symbol first.2 /\
  List.map name second.2 = List.map name first.2 /\
  exists r, second.1 = mkResponse 200 (PStock r) /\
            findDoc "AAPL" second.2 = Some r /\
            price r = Sample.n155 /\ change r = Sample.n2 /\
            lastUpdated r = 2000.
Proof.
  apply (search_twice_same_store
           (Sample.quoting 2000 (JObject Sample.appleQuote))
           (Sample.quoting 2000 (JObject Sample.appleQuote))
           "aapl" [] Sample.appleQuote Sample.appleQuote "Apple" "Apple"
           Sample.n155 Sample.n2 Sample.n155 Sample.n2);
    try reflexivity; split; reflexivity.
Defined.

(** ** POST /api/stocks, then GET /api/stocks *)

(** X15: what a valid POST stored is what GET /api/stocks lists next. After
    a POST that the store accepted, the list of a following GET is the
    collection the POST left; it holds a record under the posted symbol with
    the posted price and change and the clock reading of the POST; and when
    the symbol was new, the POST answered 201 and the list is the earlier
    records, in their order, followed by the record as posted. *)
Theorem post_then_get env env' body db (s n : string) (p c : number) :
  validPayload body s n p c ->
  storeFails env OpFindOne = false -> storeFails env OpSave = false ->
  storeFails env' OpFind = false ->
  exists l r,
    getStocks env' (postStocks env body db).2
      = (mkResponse 200 (PStocks l), l) /\
    In r l /\ findDoc s l = Some r /\
    symbol r = s /\ price r = p /\ change r = c /\ lastUpdated r = now env /\
    (findDoc s db = None ->
     (postStocks env body db).1 = mkResponse 201 (PStock r) /\
     name r = n /\ l = db ++ [r]) /\
    (forall r0, findDoc s db = Some r0 ->
     (postStocks env body db).1 = mkResponse 200 (PStock r) /\
     name r = name r0 /\ l = replaceDoc s r db).
Proof.
  intros Hv Hf Hs Hfind.
  assert (Hget : forall l, getStocks env' l = (mkResponse 200 (PStocks l), l))
    by (intros l; run_route; now rewrite Hfind).
  destruct (findDoc s db) as [r0|] eqn:Hr.
  - rewrite (postStocks_existing _ _ _ _ _ _ _ _ Hv Hf Hs Hr). cbn [fst snd].
    set (r := mkStock s (name r0) p c (now env)).
    exists (replaceDoc s r db), r.
    assert (H1 : findDoc s (replaceDoc s r db) = Some r)
      by now apply findDoc_replaceDoc with r0.
    split; [apply Hget|]. split.
    { unfold findDoc in H1. now apply List.find_some in H1. }
    split; [exact H1|]. repeat split; try discriminate.
    + now injection H as <-.
  - rewrite (postStocks_new _ _ _ _ _ _ _ Hv Hf Hs Hr). cbn [fst snd].
    set (r := mkStock s n p c (now env)).
    exists (db ++ [r]), r.
    split; [apply Hget|]. split; [apply List.in_or_app; right; now left|].
    split; [now apply findDoc_appended|]. repeat split; discriminate.
Qed.

Lemma post_then_get_witness :
  exists l r,
    getStocks (Sample.quiet 3000)
      (postStocks (Sample.quiet 2000) Sample.applePayload []).2
      = (mkResponse 200 (PStocks l), l) /\
    In r l /\ findDoc "AAPL" l = Some r /\
    symbol r = "AAPL" /\ price r = Sample.n150 /\ change r = Sample.n1_2 /\
    lastUpdated r = 2000 /\
    (findDoc "AAPL" [] = None ->
     (postStocks (Sample.quiet 2000) Sample.applePayload []).1
       = mkResponse 201 (PStock r) /\
     name r = "Apple" /\ l = [] ++ [r]) /\
    (forall r0, findDoc "AAPL" [] = Some r0 ->
     (postStocks (Sample.quiet 2000) Sample.applePayload []).1
       = mkResponse 200 (PStock r) /\
     name r = name r0 /\ l = replaceDoc "AAPL" r []).
Proof.
  apply (post_then_get (Sample.quiet 2000) (Sample.quiet 3000)
           Sample.applePayload [] "AAPL" "Apple" Sample.n150 Sample.n1_2);
    try reflexivity.
  repeat split; try reflexivity; discriminate.
Defined.
